(** * goutil / termenv: terminal colour-level detection

    A shallow embedding of the [termenv] package (colour-level
    classification from the process environment, the testing overrides
    [ForceEnableColor] / [RevertColorSupport], and the one-shot WSL probe),
    followed by the properties of the package's specification.

    Go strings are byte strings and are modelled by [string]; the package
    level variables are the fields of [State]; everything the package reads
    from outside (environment, [runtime.GOOS], [/proc/version]) is a field
    of [World]; functions that touch either are written in the monad [M]. *)

From Stdlib Require Import ZArith String Ascii List Bool Lia.
From stdpp Require Import base option gmap strings.

Local Open Scope string_scope.
Local Open Scope Z_scope.

(** ** The parts of Go's standard library the package calls *)

Module Strings.

(** [strings.HasPrefix s prefix]: [s] begins with [prefix]. *)
Fixpoint HasPrefix (s prefix : string) {struct prefix} : bool :=
  match prefix with
  | EmptyString => true
  | String p prefix' =>
      match s with
      | EmptyString => false
      | String c s' => Ascii.eqb c p && HasPrefix s' prefix'
      end
  end.

(** [strings.Contains s substr]: [substr] occurs in [s] at some offset. *)
Fixpoint Contains (s substr : string) : bool :=
  HasPrefix s substr ||
  match s with
  | EmptyString => false
  | String _ rest => Contains rest substr
  end.

(** [strings.Split s sep] for a non-empty separator (the only use in the
    package is [sep = "."]).  [skip] counts the bytes of a separator
    occurrence that is being stepped over, [cur] is the piece collected
    so far.  The result always has at least one element. *)
Fixpoint SplitFrom (s sep : string) (skip : nat) (cur : string) : list string :=
  match s with
  | EmptyString => [cur]
  | String c rest =>
      match skip with
      | S k => SplitFrom rest sep k cur
      | O =>
          if HasPrefix s sep
          then cur :: SplitFrom rest sep (Nat.pred (String.length sep)) EmptyString
          else SplitFrom rest sep O (cur ++ String c EmptyString)
      end
  end.

Definition Split (s sep : string) : list string := SplitFrom s sep O EmptyString.

End Strings.

Module Strconv.

(** Value of a decimal digit byte, if it is one. *)
Definition digit (c : ascii) : option Z :=
  let n := Z.of_nat (nat_of_ascii c) in
  if (48 <=? n) && (n <=? 57) then Some (n - 48) else None.

(** Unsigned decimal value of a string of digits, most significant
    first; [None] on any other byte. *)
Fixpoint digits (s : string) (acc : Z) : option Z :=
  match s with
  | EmptyString => Some acc
  | String c rest =>
      match digit c with
      | Some d => digits rest (acc * 10 + d)
      | None => None
      end
  end.

(** Width of Go's [int]; the package is built for 64-bit hosts. *)
Definition intSize : Z := 64.

(** [strconv.Atoi]: an optional sign, then one or more decimal digits;
    the value has to fit [int].  [None] stands for a non-nil [err] (the
    package only tests [err != nil]). *)
Definition Atoi (s : string) : option Z :=
  let '(neg, body) :=
    match s with
    | String "-" rest => (true, rest)
    | String "+" rest => (false, rest)
    | _ => (false, s)
    end in
  match body with
  | EmptyString => None
  | _ =>
      match digits body 0 with
      | Some n =>
          let v := if neg then - n else n in
          if (- 2 ^ (intSize - 1) <=? v) && (v <=? 2 ^ (intSize - 1) - 1)
          then Some v else None
      | None => None
      end
  end.

End Strconv.

(** ** Data model *)

(** [ColorLevel] is a [uint8] with four named constants. *)
Inductive ColorLevel : Type :=
| TermColorNone   (* not support color *)
| TermColor16     (* 16(4bit) ANSI color supported *)
| TermColor256    (* 256(8bit) color supported *)
| TermColorTrue.  (* support TRUE(RGB) color *)

(** The [iota] value of each constant. *)
Definition ColorLevel_val (l : ColorLevel) : Z :=
  match l with
  | TermColorNone => 0
  | TermColor16 => 1
  | TermColor256 => 2
  | TermColorTrue => 3
  end.

Definition ColorLevel_eqb (a b : ColorLevel) : bool :=
  ColorLevel_val a =? ColorLevel_val b.

(** [(l ColorLevel) String()]. *)
Definition ColorLevel_String (l : ColorLevel) : string :=
  match l with
  | TermColor16 => "ansi"
  | TermColor256 => "256"
  | TermColorTrue => "true"
  | _ => "none"
  end.

(** Go [error] values the package handles. *)
Inductive error : Type :=
| ErrInvalidTermProgramVersion      (* terminfo.ErrInvalidTermProgramVersion *)
| ErrOS (msg : string).             (* an error returned by the os package *)

(** What the package observes of its host. *)
Record World : Type := mkWorld {
  environ : gmap string string;  (* the process environment *)
  GOOS : string;                 (* runtime.GOOS *)
  procVersion : option string;   (* /proc/version: [None] when os.Open fails,
                                    else the bytes one Read call delivers *)
  procCloseErr : option error    (* what f.Close() returns for that file *)
}.

(** The package-level variables.  [backOldVal], [detectedWSL] and
    [wslContents] are declared in the sources; [noColor], [supportColor] and
    [colorLevel] are declared elsewhere in the package and only used here;
    [lastErr] is the slot behind [setLastErr].  [procOpens] is
    instrumentation: the number of times [/proc/version] has been opened so
    far. *)
Record State : Type := mkState {
  noColor : bool;
  supportColor : bool;
  colorLevel : ColorLevel;
  backOldVal : bool;
  detectedWSL : bool;
  wslContents : string;
  lastErr : option error;
  procOpens : nat
}.

Definition set_noColor (b : bool) (s : State) : State :=
  mkState b (supportColor s) (colorLevel s) (backOldVal s)
          (detectedWSL s) (wslContents s) (lastErr s) (procOpens s).
Definition set_supportColor (b : bool) (s : State) : State :=
  mkState (noColor s) b (colorLevel s) (backOldVal s)
          (detectedWSL s) (wslContents s) (lastErr s) (procOpens s).
Definition set_colorLevel (l : ColorLevel) (s : State) : State :=
  mkState (noColor s) (supportColor s) l (backOldVal s)
          (detectedWSL s) (wslContents s) (lastErr s) (procOpens s).
Definition set_backOldVal (b : bool) (s : State) : State :=
  mkState (noColor s) (supportColor s) (colorLevel s) b
          (detectedWSL s) (wslContents s) (lastErr s) (procOpens s).
Definition set_detectedWSL (b : bool) (s : State) : State :=
  mkState (noColor s) (supportColor s) (colorLevel s) (backOldVal s)
          b (wslContents s) (lastErr s) (procOpens s).
Definition set_wslContents (c : string) (s : State) : State :=
  mkState (noColor s) (supportColor s) (colorLevel s) (backOldVal s)
          (detectedWSL s) c (lastErr s) (procOpens s).
Definition set_lastErr (e : option error) (s : State) : State :=
  mkState (noColor s) (supportColor s) (colorLevel s) (backOldVal s)
          (detectedWSL s) (wslContents s) e (procOpens s).
Definition set_procOpens (n : nat) (s : State) : State :=
  mkState (noColor s) (supportColor s) (colorLevel s) (backOldVal s)
          (detectedWSL s) (wslContents s) (lastErr s) n.

(** ** The monad of package functions: read the world, thread the state *)

Definition M (A : Type) : Type := World -> State -> A * State.

Definition ret {A} (a : A) : M A := fun _ s => (a, s).
Definition bind {A B} (m : M A) (k : A -> M B) : M B :=
  fun w s => let (a, s') := m w s in k a w s'.

Notation "'do' x <- m ;; k" := (bind m (fun x => k))
  (at level 10, x name, m at level 99, k at level 200, only parsing).
Notation "'run' m ;; k" := (bind m (fun _ => k))
  (at level 10, m at level 99, k at level 200, only parsing).

(** The value [os.Getenv key] reports in world [w]: the variable's value,
    or the empty string when [key] is unset. *)
Definition envValue (w : World) (key : string) : string :=
  default "" (environ w !! key).

(** [os.Getenv key]. *)
Definition Getenv (key : string) : M string :=
  fun w s => (envValue w key, s).

(** [runtime.GOOS]. *)
Definition runtimeGOOS : M string := fun w s => (GOOS w, s).

(** ** Helpers of the package that are not among the sources *)

(** Modelled from the spec: [setLastErr] is called by the sources but
    defined elsewhere in the package.  The spec keeps "a single last error
    slot ... retained for diagnostic inspection"; the call stores its
    argument there. *)
Definition setLastErr (e : error) : M unit :=
  fun _ s => (tt, set_lastErr (Some e) s).

(** Modelled from the spec: [debugf] is called by the sources but defined
    elsewhere in the package.  It emits a diagnostic line and has no part
    in the state the spec describes. *)
Definition debugf (format : string) : M unit := ret tt.

(** ** Capability queries *)

(** [NoColor()]. *)
Definition NoColor (s : State) : bool := noColor s.

(** [IsSupportColor()]: [colorLevel != TermColorNone]. *)
Definition IsSupportColor (s : State) : bool :=
  negb (ColorLevel_eqb (colorLevel s) TermColorNone).

(** [IsSupport256Color()]: [colorLevel >= TermColor256]. *)
Definition IsSupport256Color (s : State) : bool :=
  ColorLevel_val TermColor256 <=? ColorLevel_val (colorLevel s).

(** [IsSupportTrueColor()]: [colorLevel == TermColorTrue]. *)
Definition IsSupportTrueColor (s : State) : bool :=
  ColorLevel_eqb (colorLevel s) TermColorTrue.

(** ** Testing overrides *)

(** [ForceEnableColor()]. *)
Definition ForceEnableColor : M unit :=
  fun _ s =>
    let s1 := set_noColor false s in
    let s2 := set_backOldVal (supportColor s1) s1 in
    (tt, set_supportColor true s2).

(** [RevertColorSupport()]. *)
Definition RevertColorSupport : M unit :=
  fun w s =>
    let s1 := set_supportColor (backOldVal s) s in
    let (v, s2) := Getenv "NO_COLOR" w s1 in
    (tt, set_noColor (v =? "")%string s2).

(** ** Colour-level detection *)

(** on TERM=screen: not support true-color *)
Definition noTrueColorTerm : string := "screen".

(** [detectColorLevelFromEnv termVal isWin]. *)
Definition detectColorLevelFromEnv (termVal : string) (isWin : bool) : M ColorLevel :=
  if (termVal =? noTrueColorTerm)%string then ret TermColor256 else
  do colorTerm <- Getenv "COLORTERM" ;;
  do termProg <- Getenv "TERM_PROGRAM" ;;
  do forceColor <- Getenv "FORCE_COLOR" ;;
  if Strings.Contains colorTerm "truecolor" || Strings.Contains colorTerm "24bit"
  then ret TermColorTrue
  else if negb (colorTerm =? "")%string || negb (forceColor =? "")%string
  then ret TermColor16
  else if (termProg =? "Apple_Terminal")%string
  then ret TermColor256
  else if (termProg =? "Terminus")%string || (termProg =? "Hyper")%string
  then ret TermColorTrue
  else if (termProg =? "iTerm.app")%string
  then
    (do termVer <- Getenv "TERM_PROGRAM_VERSION" ;;
     if negb (termVer =? "")%string
     then
       match Strconv.Atoi (hd "" (Strings.Split termVer ".")) with
       | None => (run setLastErr ErrInvalidTermProgramVersion ;; ret TermColor256)
       | Some i => if i =? 3 then ret TermColorTrue else ret TermColor256
       end
     else ret TermColor256)
  else if negb isWin && negb (termVal =? "")%string
  then (run debugf "TERM=%s - TODO check color level by load terminfo file" ;;
        ret TermColor16)
  else ret TermColorNone.

Section Detect.

(** The fallback [detectSpecialTermColor termVal] is called by
    [detectTermColorLevel] but defined elsewhere in the package; the
    functions below take it as a parameter. *)
Variable detectSpecialTermColor : string -> M (ColorLevel * bool).

(** [detectTermColorLevel()]: the level and [needVTP]. *)
Definition detectTermColorLevel : M (ColorLevel * bool) :=
  do goos <- runtimeGOOS ;;
  let isWin := (goos =? "windows")%string in
  do termVal <- Getenv "TERM" ;;
  do jediTerm <-
    (if negb (termVal =? noTrueColorTerm)%string
     then (do val <- Getenv "TERMINAL_EMULATOR" ;;
           ret (val =? "JetBrains-JediTerm")%string)
     else ret false) ;;
  if jediTerm : bool
  then (run debugf "True Color support on JetBrains-JediTerm, is win: %v" ;;
        ret (TermColorTrue, false))
  else
    do level <- detectColorLevelFromEnv termVal isWin ;;
    run debugf "color level by detectColorLevelFromEnv: %s" ;;
    if ColorLevel_eqb level TermColorNone
    then (run debugf "level none - fallback check special term color support" ;;
          detectSpecialTermColor termVal)
    else ret (level, false).

(** [DetectColorLevel()]. *)
Definition DetectColorLevel : M ColorLevel :=
  do r <- detectTermColorLevel ;;
  ret (fst r).

End Detect.

(** ** The WSL probe *)

(** [string(b)] for the 1024-byte buffer [b := make([]byte, 1024)] after
    [f.Read(b)] delivered [data]: the bytes read, then zero bytes. *)
Fixpoint bufString (n : nat) (data : string) : string :=
  match n with
  | O => EmptyString
  | S k =>
      match data with
      | EmptyString => String "000"%char (bufString k EmptyString)
      | String c rest => String c (bufString k rest)
      end
  end.

(** [detectWSL()]. *)
Definition detectWSL : M bool :=
  fun w s =>
    if negb (detectedWSL s)
    then
      let s1 := set_detectedWSL true s in
      let s2 := set_procOpens (S (procOpens s1)) s1 in   (* os.Open *)
      match procVersion w with
      | Some data =>
          let s3 :=
            match procCloseErr w with
            | Some err => snd (setLastErr err w s2)
            | None => s2
            end in
          let s4 := set_wslContents (bufString 1024 data) s3 in
          (Strings.Contains (wslContents s4) "Microsoft", s4)
      | None => (false, s2)
      end
    else (false, s).

(** Running a function of the package. *)
Definition result {A} (m : M A) (w : World) (s : State) : A := fst (m w s).
Definition after {A} (m : M A) (w : World) (s : State) : State := snd (m w s).

(** A process that has not run any function of the package yet. *)
Definition freshState : State :=
  mkState false false TermColorNone false false "" None 0.

(** A host given by its environment alone: Linux, no [/proc/version]. *)
Definition linuxWith (e : gmap string string) : World :=
  mkWorld e "linux" None None.

(** A fallback that keeps level None and asks for nothing. *)
Definition noFallback : string -> M (ColorLevel * bool) :=
  fun _ => ret (TermColorNone, false).

(** A fallback that consults the WSL probe. *)
Definition wslFallback : string -> M (ColorLevel * bool) :=
  fun _ => do wsl <- detectWSL ;;
           ret (if wsl : bool then TermColorTrue else TermColorNone, wsl).

(** ** Notions the properties are stated with *)

(** The bytes of [s] before its first ['.'] (all of [s] if it has none). *)
Fixpoint beforeDot (s : string) : string :=
  match s with
  | EmptyString => EmptyString
  | String c rest => if Ascii.eqb c "." then EmptyString else String c (beforeDot rest)
  end.

(** The variables the classifier reads (spec, data model: EnvSnapshot). *)
Definition relevantVars : list string :=
  ["TERM"; "TERMINAL_EMULATOR"; "COLORTERM"; "TERM_PROGRAM";
   "TERM_PROGRAM_VERSION"; "FORCE_COLOR"; "NO_COLOR"].

(** No relevant variable is set (or each is empty). *)
Definition noRelevantVars (w : World) : Prop :=
  Forall (fun key => envValue w key = "") relevantVars.

(** Modelled from the spec: the fallback [detectSpecialTermColor] is called
    by [detectTermColorLevel] but is not among the sources.  The spec fixes
    one of its results (section 8: "No relevant variables set, non-Windows,
    TERM empty: level None"; section 4.1 step 4 lets the fallback move the
    level away from None only for the terminal identifiers of its table):
    called with an empty TERM on a host outside the Windows family, with no
    relevant variable set, it reports level None. *)
Definition fallbackNoneOnEmptyTerm (fb : string -> M (ColorLevel * bool)) : Prop :=
  forall w s,
    GOOS w <> "windows" -> noRelevantVars w ->
    fst (result (fb "") w s) = TermColorNone.

(** The flags of [s] that the overrides and the queries work on are the
    same in [s']. *)
Definition sameFlags (s s' : State) : Prop :=
  noColor s' = noColor s
  /\ supportColor s' = supportColor s
  /\ backOldVal s' = backOldVal s
  /\ colorLevel s' = colorLevel s.

(** A fallback that writes nothing but the WSL probe cache and the
    last-error slot. *)
Definition fallbackKeepsFlags (fb : string -> M (ColorLevel * bool)) : Prop :=
  forall t w s, sameFlags s (after (fb t) w s).

(** A fallback whose result does not depend on the last-error slot. *)
Definition fallbackIgnoresLastErr (fb : string -> M (ColorLevel * bool)) : Prop :=
  forall t w s e, result (fb t) w (set_lastErr e s) = result (fb t) w s.

(** Successive calls of [detectWSL], each seeing its own world: the
    results in call order, and the final state. *)
Fixpoint detectWSL_calls (ws : list World) (s : State) : list bool * State :=
  match ws with
  | [] => ([], s)
  | w :: ws' =>
      let (b, s1) := detectWSL w s in
      let (bs, s2) := detectWSL_calls ws' s1 in
      (b :: bs, s2)
  end.

(** ** Sample hosts *)

(** A Linux host with TERM=vt100 and nothing else, and one with an empty
    environment. *)
Definition vt100Host : World := linuxWith {[ "TERM" := "vt100" ]}.
Definition bareHost : World := linuxWith ∅.

(** An iTerm host that does not export TERM_PROGRAM_VERSION. *)
Definition itermNoVersion : World :=
  linuxWith {[ "TERM_PROGRAM" := "iTerm.app" ]}.

(** An iTerm host with the given TERM_PROGRAM_VERSION. *)
Definition itermVersion (ver : string) : World :=
  linuxWith {[ "TERM_PROGRAM" := "iTerm.app"; "TERM_PROGRAM_VERSION" := ver ]}.

(** A host that exports NO_COLOR=1. *)
Definition noColorHost : World := linuxWith {[ "NO_COLOR" := "1" ]}.

(** A host whose [/proc/version] carries the WSL vendor marker. *)
Definition wslHost : World :=
  mkWorld ∅ "linux"
    (Some "Linux version 4.4.0-19041-Microsoft (Microsoft@Microsoft.com) (gcc version 5.4.0 (GCC) ) #488-Microsoft Mon Sep 01 13:43:00 PST 2020")
    None.

(** ** More sample hosts *)

(** A Windows host given by its environment alone. *)
Definition windowsWith (e : gmap string string) : World :=
  mkWorld e "windows" None None.

(** Terminal programs the environment rules know. *)
Definition appleTerminalHost : World :=
  linuxWith {[ "TERM_PROGRAM" := "Apple_Terminal"; "TERM" := "xterm-256color" ]}.
Definition hyperHost : World := linuxWith {[ "TERM_PROGRAM" := "Hyper" ]}.

(** A Windows host with TERM=xterm. *)
Definition windowsXterm : World := windowsWith {[ "TERM" := "xterm" ]}.

(** A host where [/proc/version] cannot be opened, and the same host once
    the file has become readable. *)
Definition noProcHost : World := linuxWith ∅.
Definition lateProcHost : World :=
  mkWorld ∅ "linux" (Some "Linux version 5.15 Microsoft") None.

(** The first [n] bytes of [s] (all of [s] if it is shorter). *)
Fixpoint firstBytes (n : nat) (s : string) : string :=
  match n, s with
  | S k, String c rest => String c (firstBytes k rest)
  | _, _ => EmptyString
  end.

(** No byte of [s] is the zero byte. *)
Fixpoint noNUL (s : string) : bool :=
  match s with
  | EmptyString => true
  | String c rest => negb (Ascii.eqb c "000") && noNUL rest
  end.

(** ** Package arrutil: slice conversions *)

Module Arrutil.

(** A Go [any] value, as far as the package builds one: the zero value
    [make([]any, n)] fills a slice with, or a string. *)
Inductive any : Type :=
| AnyNil
| AnyString (s : string).

(** The non-nil error of [strconv.Atoi]: a [*strconv.NumError] whose [Func]
    is "Atoi" and whose [Num] is the input.  Its [Err] field (syntax or
    range) is not modelled. *)
Inductive NumError : Type :=
| mkNumError (Func Num : string).

(** [strconv.Atoi] with its error value.  The number that comes with a
    non-nil error is not modelled (the package drops it). *)
Definition Atoi (s : string) : Z * option NumError :=
  match Strconv.Atoi s with
  | Some i => (i, None)
  | None => (0, Some (mkNumError "Atoi" s))
  end.

(** The loop [for i, s := range ss { args[i] = s }], entered at index [i]
    (every index it writes is within [args], see [StringsToAnys]). *)
Fixpoint fillAnys (i : nat) (ss : list string) (args : list any) : list any :=
  match ss with
  | [] => args
  | s :: rest => fillAnys (S i) rest (<[i := AnyString s]> args)
  end.

(** [StringsToAnys(ss)]. *)
Definition StringsToAnys (ss : list string) : list any :=
  let args := replicate (length ss) AnyNil in   (* make([]any, len(ss)) *)
  fillAnys 0 ss args.

(** [StringsToSlice(ss)]. *)
Definition StringsToSlice (ss : list string) : list any := StringsToAnys ss.

(** The loop of [StringsTryInts], entered with the values collected so
    far; a nil slice is the empty list. *)
Fixpoint tryIntsFrom (ss : list string) (ints : list Z) : list Z * option NumError :=
  match ss with
  | [] => (ints, None)
  | str :: rest =>
      let (iVal, err) := Atoi str in
      match err with
      | Some e => ([], Some e)                    (* return nil, err *)
      | None => tryIntsFrom rest (ints ++ [iVal])   (* ints = append(ints, iVal) *)
      end
  end.

(** [StringsTryInts(ss)]. *)
Definition StringsTryInts (ss : list string) : list Z * option NumError :=
  tryIntsFrom ss [].

(** [StringsToInts(ss)]. *)
Definition StringsToInts (ss : list string) : list Z * option NumError :=
  StringsTryInts ss.

(** [StringsAsInts(ss)]. *)
Definition StringsAsInts (ss : list string) : list Z :=
  fst (StringsTryInts ss).

End Arrutil.

(** ** More of Go's standard library *)

Module Golib.

(** [strings.SplitN s sep n] for a non-empty separator, entered with
    [skip] bytes of a separator occurrence still to step over, the piece
    [cur] collected so far and [k] splits left. *)
Fixpoint SplitNFrom (s sep : string) (skip : nat) (cur : string) (k : nat)
  : list string :=
  match s with
  | EmptyString => [cur]
  | String c rest =>
      match skip with
      | S j => SplitNFrom rest sep j cur k
      | O =>
          match k with
          | O => [(cur ++ s)%string]
          | S k' =>
              if Strings.HasPrefix s sep
              then cur :: SplitNFrom rest sep (Nat.pred (String.length sep)) EmptyString k'
              else SplitNFrom rest sep O (cur ++ String c EmptyString)%string k
          end
      end
  end.

(** [strings.SplitN s sep n]: at most [n] pieces when [n > 0], the last
    one the unsplit rest; nil when [n = 0]; all pieces when [n < 0]. *)
Definition SplitN (s sep : string) (n : Z) : list string :=
  if n =? 0 then []
  else if n <? 0 then Strings.Split s sep
  else SplitNFrom s sep O EmptyString (Nat.pred (Z.to_nat n)).

(** The digit characters of [strconv.FormatInt]. *)
Definition digitChar (d : Z) : ascii :=
  if d <? 10 then ascii_of_nat (Z.to_nat (48 + d))
  else ascii_of_nat (Z.to_nat (97 + (d - 10))).

(** The digits of [u >= 0] in [base], most significant first, in front of
    [acc]; [fuel] bounds the number of digits (64 are enough for an
    [int64] in any base from 2). *)
Fixpoint formatBits (fuel : nat) (u base : Z) (acc : string) : string :=
  match fuel with
  | O => acc
  | S f =>
      let acc' := String (digitChar (u mod base)) acc in
      if u <? base then acc' else formatBits f (u / base) base acc'
  end.

(** [strconv.FormatInt i base] for an [int64] [i] and [2 <= base <= 36]. *)
Definition FormatInt (i base : Z) : string :=
  if i <? 0 then String "-" (formatBits 64 (- i) base EmptyString)
  else formatBits 64 i base EmptyString.

(** [s] has the byte [c]. *)
Fixpoint hasByte (c : ascii) (s : string) : bool :=
  match s with
  | EmptyString => false
  | String a rest => Ascii.eqb a c || hasByte c rest
  end.

(** What [syscall.Setenv] accepts on Unix: a non-empty key without ['=']
    and without a zero byte, and a value without a zero byte. *)
Definition validKey (key : string) : bool :=
  negb (key =? "")%string && negb (hasByte "=" key) && negb (hasByte "000" key).
Definition validValue (value : string) : bool := negb (hasByte "000" value).

(** [os.Getenv key] in the environment [e]; an empty key is never found. *)
Definition Getenv (e : gmap string string) (key : string) : string :=
  if (key =? "")%string then "" else default "" (e !! key).

(** [os.Setenv key value]: the environment afterwards and the error. *)
Definition Setenv (key value : string) (e : gmap string string)
  : gmap string string * option error :=
  if validKey key && validValue value
  then (<[key := value]> e, None)
  else (e, Some (ErrOS "setenv: invalid argument")).

(** [os.Unsetenv key]; it reports no error on Unix. *)
Definition Unsetenv (key : string) (e : gmap string string) : gmap string string :=
  delete key e.

(** [os.Clearenv()]. *)
Definition Clearenv (e : gmap string string) : gmap string string := ∅.

(** [os.Environ()]: one "key=value" string per variable. *)
Definition Environ (e : gmap string string) : list string :=
  (fun kv => (kv.1 ++ "=" ++ kv.2)%string) <$> map_to_list e.

End Golib.

(** ** Package testutil: mocking the process environment *)

Module Testutil.

Import Golib.

(** A value a call panics with: an [error] handed to [panic], or a
    run-time error of Go itself. *)
Inductive panicValue : Type :=
| PanicError (err : error)
| PanicRuntime (msg : string).

(** How a call ends: it returns, or it panics. *)
Inductive outcome (A : Type) : Type :=
| Returned (a : A)
| Panicked (v : panicValue).
Arguments Returned {A} a.
Arguments Panicked {A} v.

(** Every variable of [e] is one [os.Setenv] accepts (as in an
    environment the process was started with or built through
    [os.Setenv]). *)
Definition wfEnv (e : gmap string string) : Prop :=
  forall k v, e !! k = Some v -> validKey k = true /\ validValue v = true.

(** [MockEnvValue(key, val, fn)].  The callback is given by what it does
    to the environment. *)
Definition MockEnvValue (key val : string)
    (fn : string -> gmap string string -> gmap string string)
    (e : gmap string string) : outcome (gmap string string) :=
  let old := Getenv e key in
  match Setenv key val e with
  | (_, Some err) => Panicked (PanicError err)
  | (e1, None) =>
      let e2 := fn (Getenv e1 key) e1 in
      (* if old is empty, unset key. *)
      let (e3, err) :=
        if (old =? "")%string then (Unsetenv key e2, None) else Setenv key old e2 in
      match err with
      | Some err => Panicked (PanicError err)
      | None => Returned e3
      end
  end.

(** The loop [for key, val := range kvMap { backups[key] = os.Getenv(key);
    _ = os.Setenv(key, val) }], over the entries in the order [kvs]. *)
Fixpoint backupAndSet (kvs : list (string * string))
    (backups e : gmap string string) : gmap string string * gmap string string :=
  match kvs with
  | [] => (backups, e)
  | (key, val) :: rest =>
      let backups' := <[key := Getenv e key]> backups in
      backupAndSet rest backups' (Setenv key val e).1
  end.

(** The loop [for key := range kvMap { ... }] that puts the old values
    back, over the keys in the order [keys]. *)
Fixpoint restoreBackups (keys : list string)
    (backups e : gmap string string) : gmap string string :=
  match keys with
  | [] => e
  | key :: rest =>
      let old := default "" (backups !! key) in
      restoreBackups rest backups
        (if (old =? "")%string then Unsetenv key e else (Setenv key old e).1)
  end.

(** [MockEnvValues(kvMap, fn)], its first loop visiting the entries of
    [kvMap] in the order [order1] and its second loop the keys in the order
    [order2] (Go ranges over a map in an order it does not specify). *)
Definition MockEnvValuesIn (order1 : list (string * string)) (order2 : list string)
    (fn : gmap string string -> gmap string string)
    (e : gmap string string) : gmap string string :=
  let (backups, e1) := backupAndSet order1 ∅ e in
  let e2 := fn e1 in
  restoreBackups order2 backups e2.

(** [MockEnvValues(kvMap, fn)] with both loops in the order of
    [map_to_list]. *)
Definition MockEnvValues (kvMap : gmap string string)
    (fn : gmap string string -> gmap string string)
    (e : gmap string string) : gmap string string :=
  MockEnvValuesIn (map_to_list kvMap) (map_to_list kvMap).*1 fn e.

(** The environment the callback of [MockEnvValues] runs in. *)
Definition mockedEnv (kvMap e : gmap string string) : gmap string string :=
  (backupAndSet (map_to_list kvMap) ∅ e).2.

(** The loop [for key, val := range mp { _ = os.Setenv(key, val) }]. *)
Fixpoint setAll (kvs : list (string * string)) (e : gmap string string)
  : gmap string string :=
  match kvs with
  | [] => e
  | (key, val) :: rest => setAll rest (Setenv key val e).1
  end.

(** The loop [for key := range mp { _ = os.Unsetenv(key) }]. *)
Fixpoint unsetAll (keys : list string) (e : gmap string string)
  : gmap string string :=
  match keys with
  | [] => e
  | key :: rest => unsetAll rest (Unsetenv key e)
  end.

(** The loop over [envBak] of [RevertOSEnv] and [MockCleanOsEnv]:
    [nodes := strings.SplitN(str, "=", 2); _ = os.Setenv(nodes[0], nodes[1])];
    indexing [nodes[1]] panics when the entry has no ['=']. *)
Fixpoint setFromBak (bak : list string) (e : gmap string string)
  : outcome (gmap string string) :=
  match bak with
  | [] => Returned e
  | str :: rest =>
      match SplitN str "=" 2 with
      | node0 :: node1 :: _ => setFromBak rest (Setenv node0 node1 e).1
      | _ => Panicked (PanicRuntime "index out of range [1] with length 1")
      end
  end.

(** The package state: the process environment, the groups registered by
    [SetOsEnvs], and the backup [envBak = os.Environ()] taken when the
    package was initialised. *)
Record State : Type := mkState {
  env : gmap string string;
  envGroupSet : gmap string (gmap string string);
  envBak : list string
}.

(** [ClearOSEnv()]. *)
Definition ClearOSEnv (st : State) : State :=
  mkState (Clearenv (env st)) (envGroupSet st) (envBak st).

(** [RevertOSEnv()]. *)
Definition RevertOSEnv (st : State) : outcome State :=
  match setFromBak (envBak st) (Clearenv (env st)) with
  | Returned e => Returned (mkState e (envGroupSet st) (envBak st))
  | Panicked v => Panicked v
  end.

(** [RunOnCleanEnv(runFn)]. *)
Definition RunOnCleanEnv (runFn : gmap string string -> gmap string string)
    (st : State) : outcome State :=
  let e1 := Clearenv (env st) in
  let e2 := runFn e1 in
  RevertOSEnv (mkState e2 (envGroupSet st) (envBak st)).

(** [MockCleanOsEnv(mp, fn)]. *)
Definition MockCleanOsEnv (mp : gmap string string)
    (fn : gmap string string -> gmap string string)
    (st : State) : outcome State :=
  let e1 := setAll (map_to_list mp) (Clearenv (env st)) in
  let e2 := fn e1 in
  match setFromBak (envBak st) (Clearenv e2) with
  | Returned e => Returned (mkState e (envGroupSet st) (envBak st))
  | Panicked v => Panicked v
  end.

(** [MockOsEnv(mp, fn)]. *)
Definition MockOsEnv (mp : gmap string string)
    (fn : gmap string string -> gmap string string)
    (st : State) : outcome State :=
  MockCleanOsEnv mp fn st.

(** [SetOsEnvs(mp)], called when [time.Now().UnixMicro()] is [now]: the
    group key and the state afterwards. *)
Definition SetOsEnvs (now : Z) (mp : gmap string string) (st : State)
  : string * State :=
  let timeStr := FormatInt now 32 in
  let tmpKey := ("g_" ++ timeStr)%string in
  let groups := <[tmpKey := mp]> (envGroupSet st) in
  (tmpKey, mkState (setAll (map_to_list mp) (env st)) groups (envBak st)).

(** [RemoveTmpEnvs(tmpKey)]. *)
Definition RemoveTmpEnvs (tmpKey : string) (st : State) : State :=
  match envGroupSet st !! tmpKey with
  | Some mp =>
      mkState (unsetAll (map_to_list mp).*1 (env st))
              (delete tmpKey (envGroupSet st))   (* delete group key *)
              (envBak st)
  | None => st
  end.

End Testutil.

(** ** Notions for the properties of testutil *)

(** [kvs] lists the entries of the map [m] in some order: what a [range]
    loop over [m] may visit. *)
Definition rangeOf (m : gmap string string) (kvs : list (string * string)) : Prop :=
  kvs ≡ₚ map_to_list m.

(** What [os.Setenv key value] makes of the variable [key] whose entry was
    [before]. *)
Definition afterSetenv (key value : string) (before : option string) : option string :=
  if Golib.validKey key && Golib.validValue value then Some value else before.

(** ** Package cflag: the command table of an application *)

Module Cflag.

(** What [goutil.Panicf(format, args...)] is called with; the helper
    itself is outside the sources. *)
Inductive panicArg : Type :=
| PanicString (msg : string)                     (* panic("...") *)
| PanicFormat (format : string) (args : list string)  (* goutil.Panicf *)
| PanicNilPointer.                               (* nil pointer dereference *)

Inductive outcome (A : Type) : Type :=
| Returned (a : A)
| Panicked (v : panicArg).
Arguments Returned {A} a.
Arguments Panicked {A} v.

Section Handlers.

(** The type of the handlers [func(c *Cmd) error]. *)
Variable handler : Type.

(** [mathutil.MaxInt], defined outside the sources. *)
Variable MaxInt : Z -> Z -> Z.

(** The fields of [CFlags] (declared outside the sources) that this file
    writes or reads: [Desc], the name its [FlagSet] was created with, and
    [Func]. *)
Record CFlags : Type := mkCFlags {
  CFDesc : string;
  FlagSetName : string;
  CFFunc : option handler
}.

(** [Cmd]; the embedded [*CFlags] may be nil.  The hook [OnAdd] is kept
    beside the command (see [addCmd]). *)
Record Cmd : Type := mkCmd {
  CmdCFlags : option CFlags;
  Name : string;
  Desc : string;
  Func : option handler
}.

(** The fields of [App] that the command table uses. *)
Record App : Type := mkApp {
  names : list string;
  cmds : gmap string Cmd;
  AppName : string;
  AppDesc : string;
  Version : string;
  NameWidth : Z
}.

(** [NewCmd(name, desc, runFunc...)]: [NewEmpty] with the closure that
    sets [Desc] and the [FlagSet]; the command's own [Desc] stays empty. *)
Definition NewCmd (name desc : string) (runFunc : list handler) : Cmd :=
  let fs := mkCFlags desc name None in
  mkCmd (Some fs) name "" (head runFunc).

(** [(c *Cmd) getDesc()]; reading [c.CFlags.Desc] through a nil [CFlags]
    panics. *)
Definition getDesc (c : Cmd) : outcome string :=
  match CmdCFlags c with
  | None => Panicked PanicNilPointer
  | Some cf =>
      if negb (CFDesc cf =? "")%string then Returned (CFDesc cf) else Returned (Desc c)
  end.

(** [NewApp(fns...)], as far as the modelled fields go. *)
Definition NewApp (fns : list (App -> App)) : App :=
  let app := mkApp [] ∅ "" "" "0.0.1" 12 in
  foldl (fun a fn => fn a) app fns.

(** [(a *App) addCmd(c)].  [onAdd] is the hook [c.OnAdd], given by what it
    does to the command; the table holds a pointer to the command, so what
    the hook changes shows in the table. *)
Definition addCmd (c : Cmd) (onAdd : option (Cmd -> Cmd)) (a : App) : outcome App :=
  let ln := Z.of_nat (String.length (Name c)) in
  if ln =? 0 then Panicked (PanicString "command name cannot be empty")
  else if bool_decide (is_Some (cmds a !! Name c))
  then Panicked (PanicFormat "command name %s has been exists" [Name c])
  else
    let names' := (names a ++ [Name c])%list in
    let width' := MaxInt (NameWidth a) ln in
    (* attach handle func *)
    let c1 :=
      match Func c with
      | Some f =>
          let cf :=
            match CmdCFlags c with
            | None => mkCFlags (Desc c) (Name c) None   (* fix: init c.CFlags *)
            | Some cf => cf
            end in
          mkCmd (Some (mkCFlags (CFDesc cf) (FlagSetName cf) (Some f)))
                (Name c) (Desc c) (Func c)
      | None => c
      end in
    let c2 := match onAdd with Some hook => hook c1 | None => c1 end in
    Returned (mkApp names' (<[Name c := c2]> (cmds a))
                    (AppName a) (AppDesc a) (Version a) width').

(** [(a *App) Add(cmds...)]. *)
Fixpoint Add (cs : list (Cmd * option (Cmd -> Cmd))) (a : App) : outcome App :=
  match cs with
  | [] => Returned a
  | (c, onAdd) :: rest =>
      match addCmd c onAdd a with
      | Returned a' => Add rest a'
      | Panicked v => Panicked v
      end
  end.

(** [(a *App) findCmd(name)]. *)
Definition findCmd (a : App) (name : string) : option Cmd := cmds a !! name.

(** [(a *App) preRun(args)], given the error [a.Parse(args)] returned
    ([isHelp] is [IsFlagHelpErr], defined outside the sources). *)
Definition preRun {E : Type} (isHelp : E -> bool) (parseErr : option E)
    (args : list string) : bool * option E :=
  let helpErr := match parseErr with Some err => isHelp err | None => false end in
  if helpErr then (true, None)
  else
    match args with
    | [] => (true, None)
    | first :: _ =>
        if (first =? "")%string then (true, None)
        else if (first =? "help")%string || (first =? "--help")%string
                || (first =? "-h")%string
        then (true, None)
        else (false, parseErr)
    end.

End Handlers.

Arguments mkCFlags {handler} _ _ _.
Arguments CFDesc {handler} _.
Arguments FlagSetName {handler} _.
Arguments CFFunc {handler} _.
Arguments mkCmd {handler} _ _ _ _.
Arguments CmdCFlags {handler} _.
Arguments Name {handler} _.
Arguments Desc {handler} _.
Arguments Func {handler} _.
Arguments mkApp {handler} _ _ _ _ _ _.
Arguments names {handler} _.
Arguments cmds {handler} _.
Arguments NameWidth {handler} _.
Arguments NewCmd {handler} _ _ _.
Arguments getDesc {handler} _.
Arguments NewApp {handler} _.
Arguments addCmd {handler} _ _ _ _.
Arguments Add {handler} _ _ _.
Arguments findCmd {handler} _ _.

(** The command table is consistent: [names] lists the keys of [cmds],
    each once. *)
Definition tableOk {handler} (a : App handler) : Prop :=
  NoDup (names a) /\ forall n, n ∈ names a <-> is_Some (cmds a !! n).

(** [NameWidth] is at least the length of every command name. *)
Definition widthOk {handler} (a : App handler) : Prop :=
  forall n, n ∈ names a -> Z.of_nat (String.length n) <= NameWidth a.

End Cflag.

(** ** A sample application *)

(** Two commands built with [NewCmd], as [Add] takes them. *)
Definition sampleCmds : list (Cflag.Cmd unit * option (Cflag.Cmd unit -> Cflag.Cmd unit)) :=
  [(Cflag.NewCmd "serve" "start" [tt], None);
   (Cflag.NewCmd "generate-config" "write a config" [], None)].

(** The application after adding them to a new one. *)
Definition sampleApp : Cflag.App unit :=
  match Cflag.Add Z.max sampleCmds (Cflag.NewApp []) with
  | Cflag.Returned a => a
  | Cflag.Panicked _ => Cflag.NewApp []
  end.

(** ** Facts about the library functions *)

Lemma Atoi_empty : Strconv.Atoi "" = None.
Proof. reflexivity. Qed.

Example Atoi_3 : Strconv.Atoi "3" = Some 3.
Proof. reflexivity. Qed.

Example Atoi_plus_03 : Strconv.Atoi "+03" = Some 3.
Proof. reflexivity. Qed.

Example Atoi_abc : Strconv.Atoi "abc" = None.
Proof. reflexivity. Qed.

Example Atoi_underscore : Strconv.Atoi "3_0" = None.
Proof. reflexivity. Qed.

Example Atoi_range : Strconv.Atoi "9223372036854775808" = None
                     /\ Strconv.Atoi "-9223372036854775808" = Some (- 2 ^ 63).
Proof. split; reflexivity. Qed.

Example Split_version : Strings.Split "3.4.1" "." = ["3"; "4"; "1"].
Proof. reflexivity. Qed.

Example Split_two_byte_sep : Strings.Split "a, b,, c" ", " = ["a"; "b,"; "c"].
Proof. reflexivity. Qed.

Example Split_empty : Strings.Split "" "." = [""].
Proof. reflexivity. Qed.

Lemma append_cons (c : ascii) (s t : string) :
  (String c s ++ t)%string = String c (s ++ t)%string.
Proof. reflexivity. Qed.

(** [HasPrefix] holds exactly when the string starts with the prefix. *)
Lemma HasPrefix_spec s p :
  Strings.HasPrefix s p = true <-> exists t, s = (p ++ t)%string.
Proof.
  revert s. induction p as [|c p IH]; intros s; simpl.
  - split; [now exists s | reflexivity].
  - destruct s as [|a s].
    + split; [easy|]. intros [t H]. rewrite append_cons in H. discriminate H.
    + rewrite andb_true_iff, Ascii.eqb_eq, IH. split.
      * intros [-> [t ->]]. now exists t.
      * intros [t H]. rewrite append_cons in H. injection H as -> ->. eauto.
Qed.

(** [Contains] holds exactly when the substring occurs somewhere. *)
Lemma Contains_spec s sub :
  Strings.Contains s sub = true <-> exists a b, s = (a ++ sub ++ b)%string.
Proof.
  induction s as [|c s IH]; simpl; rewrite orb_true_iff, HasPrefix_spec.
  - split.
    + intros [[t H]|H]; [|discriminate H]. now exists "", t.
    + intros [a [b H]]. left. destruct a as [|x a].
      * now exists b.
      * rewrite append_cons in H. discriminate H.
  - rewrite IH. split.
    + intros [[t H]|[a [b H]]].
      * now exists "", t.
      * exists (String c a), b. rewrite append_cons. now rewrite H.
    + intros [a [b H]]. destruct a as [|x a].
      * left. now exists b.
      * right. rewrite append_cons in H. injection H as -> ->. eauto.
Qed.

Lemma SplitFrom_not_nil s sep skip cur : Strings.SplitFrom s sep skip cur <> [].
Proof.
  revert skip cur. induction s as [|c rest IH]; intros skip cur; simpl.
  - easy.
  - destruct skip as [|k]; [|apply IH].
    match goal with |- context [if ?b then _ else _] => destruct b end;
      [easy | apply IH].
Qed.

Lemma append_empty_r (s : string) : (s ++ "")%string = s.
Proof.
  induction s as [|a s IH]; [reflexivity|].
  change (String a (s ++ "")%string = String a s). now rewrite IH.
Qed.

Lemma append_snoc (s t : string) (c : ascii) :
  ((s ++ String c "") ++ t)%string = (s ++ String c t)%string.
Proof.
  induction s as [|a s IH]; [reflexivity|].
  change (String a ((s ++ String c "") ++ t)%string = String a (s ++ String c t)%string).
  now rewrite IH.
Qed.

Lemma SplitFrom_dot_head s cur :
  hd "" (Strings.SplitFrom s "." O cur) = (cur ++ beforeDot s)%string.
Proof.
  revert cur. induction s as [|c rest IH]; intros cur; simpl.
  - now rewrite append_empty_r.
  - destruct (Ascii.eqb c ".") eqn:E; simpl.
    + now rewrite append_empty_r.
    + rewrite IH. apply append_snoc.
Qed.

(** [strings.Split(s, ".")[0]] is the part of [s] before its first dot. *)
Lemma Split_dot_head s : hd "" (Strings.Split s ".") = beforeDot s.
Proof. unfold Strings.Split. now rewrite SplitFrom_dot_head. Qed.

(** ** Running the detection functions *)

Lemma string_eqb_neq (a b : string) : a <> b -> (a =? b)%string = false.
Proof. apply String.eqb_neq. Qed.

Lemma ColorLevel_eqb_eq (a b : ColorLevel) : ColorLevel_eqb a b = true <-> a = b.
Proof. destruct a, b; unfold ColorLevel_eqb; simpl; split; congruence. Qed.

Ltac run_detect :=
  unfold DetectColorLevel, detectTermColorLevel, detectColorLevelFromEnv,
    bind, ret, Getenv, runtimeGOOS, debugf, setLastErr, noTrueColorTerm, result, after.

(** [detectTermColorLevel] when the JetBrains short-circuit does not fire:
    the level comes from [detectColorLevelFromEnv], and only level None
    hands over to the fallback. *)
Lemma detectTermColorLevel_no_short_circuit fb w s :
  envValue w "TERM" = "screen"
  \/ envValue w "TERMINAL_EMULATOR" <> "JetBrains-JediTerm" ->
  detectTermColorLevel fb w s =
    let (level, s1) :=
      detectColorLevelFromEnv (envValue w "TERM") (GOOS w =? "windows")%string w s in
    if ColorLevel_eqb level TermColorNone
    then fb (envValue w "TERM") w s1
    else ((level, false), s1).
Proof.
  intros H.
  unfold detectTermColorLevel, bind, ret, Getenv, runtimeGOOS, debugf, noTrueColorTerm.
  destruct H as [H|H].
  - rewrite H. reflexivity.
  - apply string_eqb_neq in H.
    destruct (envValue w "TERM" =? "screen")%string eqn:Ht; cbn.
    + apply String.eqb_eq in Ht. rewrite Ht. reflexivity.
    + rewrite H. cbn.
      destruct (detectColorLevelFromEnv _ _ w s) as [level s1].
      now destruct (ColorLevel_eqb level TermColorNone).
Qed.

(** A level other than None that [detectColorLevelFromEnv] reports is the
    level [DetectColorLevel] returns, with [needVTP] false. *)
Lemma detect_from_env_level fb w s level s1 :
  envValue w "TERM" = "screen"
  \/ envValue w "TERMINAL_EMULATOR" <> "JetBrains-JediTerm" ->
  detectColorLevelFromEnv (envValue w "TERM") (GOOS w =? "windows")%string w s
    = (level, s1) ->
  level <> TermColorNone ->
  detectTermColorLevel fb w s = ((level, false), s1)
  /\ DetectColorLevel fb w s = (level, s1).
Proof.
  intros H E Hl.
  assert (D : detectTermColorLevel fb w s = ((level, false), s1)).
  { rewrite detectTermColorLevel_no_short_circuit by exact H. rewrite E.
    destruct (ColorLevel_eqb level TermColorNone) eqn:B; [|reflexivity].
    apply ColorLevel_eqb_eq in B. contradiction. }
  split; [exact D|].
  unfold DetectColorLevel, bind, ret. now rewrite D.
Qed.

(** ** Properties *)

(** C4. Whenever TERM is not "screen" and TERMINAL_EMULATOR is
    "JetBrains-JediTerm", [detectTermColorLevel] returns level TrueColor with
    [needVTP] false at once: whatever else the environment holds (TERM empty,
    NO_COLOR set, ...), whatever the host, whatever the fallback would do,
    and without touching the state. *)
Theorem jediterm_short_circuit fb w s :
  envValue w "TERM" <> "screen" ->
  envValue w "TERMINAL_EMULATOR" = "JetBrains-JediTerm" ->
  detectTermColorLevel fb w s = ((TermColorTrue, false), s)
  /\ DetectColorLevel fb w s = (TermColorTrue, s).
Proof.
  intros Ht He. apply string_eqb_neq in Ht.
  run_detect. rewrite Ht. cbn. rewrite He. split; reflexivity.
Qed.

Lemma jediterm_short_circuit_witness :
  let w := linuxWith {[ "TERMINAL_EMULATOR" := "JetBrains-JediTerm";
                        "NO_COLOR" := "1" ]} in
  detectTermColorLevel wslFallback w freshState = ((TermColorTrue, false), freshState)
  /\ DetectColorLevel wslFallback w freshState = (TermColorTrue, freshState).
Proof.
  apply jediterm_short_circuit.
  - vm_compute. discriminate.
  - vm_compute. reflexivity.
Defined.

(** C5. With TERM equal to "screen" the detected level is Extended (256
    colours), never TrueColor, whatever COLORTERM, TERMINAL_EMULATOR or any
    other variable holds: the screen rule comes before every other
    environment rule, and the true-colour query on that level is false. *)
Theorem screen_is_256 fb w s :
  envValue w "TERM" = "screen" ->
  detectTermColorLevel fb w s = ((TermColor256, false), s)
  /\ DetectColorLevel fb w s = (TermColor256, s)
  /\ result (DetectColorLevel fb) w s <> TermColorTrue
  /\ IsSupportTrueColor (set_colorLevel (result (DetectColorLevel fb) w s) s) = false.
Proof.
  intros Ht.
  assert (E : detectColorLevelFromEnv (envValue w "TERM")
                (GOOS w =? "windows")%string w s = (TermColor256, s)).
  { unfold detectColorLevelFromEnv, noTrueColorTerm. now rewrite Ht. }
  destruct (detect_from_env_level fb w s _ _ (or_introl Ht) E) as [D1 D2]; [easy|].
  unfold result. rewrite D1, D2. repeat split; easy.
Qed.

Lemma screen_is_256_witness :
  let w := linuxWith {[ "TERM" := "screen"; "COLORTERM" := "truecolor";
                        "TERMINAL_EMULATOR" := "JetBrains-JediTerm" ]} in
  DetectColorLevel noFallback w freshState = (TermColor256, freshState).
Proof.
  apply screen_is_256. vm_compute. reflexivity.
Defined.

(** [detectColorLevelFromEnv] past the screen rule, as one expression over
    the environment. *)
Lemma detectColorLevelFromEnv_not_screen termVal isWin w s :
  termVal <> "screen" ->
  detectColorLevelFromEnv termVal isWin w s =
    let colorTerm := envValue w "COLORTERM" in
    let termProg := envValue w "TERM_PROGRAM" in
    let forceColor := envValue w "FORCE_COLOR" in
    let termVer := envValue w "TERM_PROGRAM_VERSION" in
    if Strings.Contains colorTerm "truecolor" || Strings.Contains colorTerm "24bit"
    then (TermColorTrue, s)
    else if negb (colorTerm =? "")%string || negb (forceColor =? "")%string
    then (TermColor16, s)
    else if (termProg =? "Apple_Terminal")%string
    then (TermColor256, s)
    else if (termProg =? "Terminus")%string || (termProg =? "Hyper")%string
    then (TermColorTrue, s)
    else if (termProg =? "iTerm.app")%string
    then
      if negb (termVer =? "")%string
      then
        match Strconv.Atoi (hd "" (Strings.Split termVer ".")) with
        | None => (TermColor256, set_lastErr (Some ErrInvalidTermProgramVersion) s)
        | Some i => if i =? 3 then (TermColorTrue, s) else (TermColor256, s)
        end
      else (TermColor256, s)
    else if negb isWin && negb (termVal =? "")%string
    then (TermColor16, s)
    else (TermColorNone, s).
Proof.
  intros Ht. apply string_eqb_neq in Ht.
  unfold detectColorLevelFromEnv, noTrueColorTerm, bind, ret, Getenv, debugf, setLastErr.
  rewrite Ht. cbv zeta.
  repeat match goal with
         | |- context [if ?b then _ else _] => destruct b; try reflexivity
         | |- context [match ?o with Some _ => _ | None => _ end] =>
             destruct o; try reflexivity
         end.
Qed.

(** C7. With TERM not "screen" and no JetBrains short-circuit: a COLORTERM
    that contains "truecolor" or "24bit" gives level TrueColor whatever
    TERM_PROGRAM (or anything else) holds; otherwise a non-empty COLORTERM
    or a non-empty FORCE_COLOR gives level Basic. *)
Theorem colorterm_rules fb w s :
  envValue w "TERM" <> "screen" ->
  envValue w "TERMINAL_EMULATOR" <> "JetBrains-JediTerm" ->
  (Strings.Contains (envValue w "COLORTERM") "truecolor" = true
   \/ Strings.Contains (envValue w "COLORTERM") "24bit" = true ->
   detectTermColorLevel fb w s = ((TermColorTrue, false), s)
   /\ DetectColorLevel fb w s = (TermColorTrue, s))
  /\
  (Strings.Contains (envValue w "COLORTERM") "truecolor" = false ->
   Strings.Contains (envValue w "COLORTERM") "24bit" = false ->
   envValue w "COLORTERM" <> "" \/ envValue w "FORCE_COLOR" <> "" ->
   detectTermColorLevel fb w s = ((TermColor16, false), s)
   /\ DetectColorLevel fb w s = (TermColor16, s)).
Proof.
  intros Ht He.
  pose proof (detectColorLevelFromEnv_not_screen _ (GOOS w =? "windows")%string w s Ht) as E.
  cbv zeta in E. split.
  - intros Hc.
    assert (B : Strings.Contains (envValue w "COLORTERM") "truecolor"
                || Strings.Contains (envValue w "COLORTERM") "24bit" = true).
    { apply orb_true_iff. exact Hc. }
    rewrite B in E.
    apply (detect_from_env_level fb w s _ _ (or_intror He) E). easy.
  - intros H1 H2 Hn. rewrite H1, H2 in E. cbn [orb] in E.
    assert (B : negb (envValue w "COLORTERM" =? "")%string
                || negb (envValue w "FORCE_COLOR" =? "")%string = true).
    { apply orb_true_iff.
      destruct Hn as [Hn|Hn]; apply string_eqb_neq in Hn; rewrite Hn; auto. }
    rewrite B in E.
    apply (detect_from_env_level fb w s _ _ (or_intror He) E). easy.
Qed.

Lemma colorterm_rules_witness :
  DetectColorLevel noFallback
    (linuxWith {[ "COLORTERM" := "truecolor"; "TERM_PROGRAM" := "Apple_Terminal" ]})
    freshState = (TermColorTrue, freshState)
  /\ DetectColorLevel noFallback
       (linuxWith {[ "TERM" := "xterm"; "FORCE_COLOR" := "1" ]})
       freshState = (TermColor16, freshState).
Proof.
  split.
  - apply colorterm_rules.
    + vm_compute. discriminate.
    + vm_compute. discriminate.
    + left. vm_compute. reflexivity.
  - apply colorterm_rules.
    + vm_compute. discriminate.
    + vm_compute. discriminate.
    + vm_compute. reflexivity.
    + vm_compute. reflexivity.
    + right. vm_compute. discriminate.
Defined.

(** C6 as stated fails where TERM_PROGRAM_VERSION is unset or empty: the
    part before the first dot is the empty string, which does not parse as
    an integer, the level is Extended, but no error is recorded. *)
Lemma iterm_empty_version_not_recorded :
  envValue itermNoVersion "TERM_PROGRAM" = "iTerm.app"
  /\ Strconv.Atoi (beforeDot (envValue itermNoVersion "TERM_PROGRAM_VERSION")) = None
  /\ result (DetectColorLevel noFallback) itermNoVersion freshState = TermColor256
  /\ ~ (exists e,
          lastErr (after (DetectColorLevel noFallback) itermNoVersion freshState)
          = Some e).
Proof.
  split; [reflexivity|]. split; [reflexivity|]. split; [reflexivity|].
  intros [e H]. vm_compute in H. discriminate H.
Qed.

(** C6 (amended). When TERM_PROGRAM is "iTerm.app" and no earlier rule
    matched, the part of TERM_PROGRAM_VERSION before its first dot decides:
    if it parses as the integer 3 the level is TrueColor, if it parses as
    another integer the level is Extended, and if it does not parse the
    level is Extended as well.  The function always returns (the index [0]
    into the split version is in range).  A failed parse is recorded in the
    last-error slot exactly when TERM_PROGRAM_VERSION is non-empty; with an
    empty or unset version no parse is attempted and the state is left as
    it was. *)
Theorem iterm_version_rule fb w s :
  envValue w "TERM" <> "screen" ->
  envValue w "TERMINAL_EMULATOR" <> "JetBrains-JediTerm" ->
  envValue w "COLORTERM" = "" ->
  envValue w "FORCE_COLOR" = "" ->
  envValue w "TERM_PROGRAM" = "iTerm.app" ->
  Strings.Split (envValue w "TERM_PROGRAM_VERSION") "." <> []
  /\ DetectColorLevel fb w s =
     match Strconv.Atoi (beforeDot (envValue w "TERM_PROGRAM_VERSION")) with
     | Some i => (if i =? 3 then TermColorTrue else TermColor256, s)
     | None =>
         (TermColor256,
          if (envValue w "TERM_PROGRAM_VERSION" =? "")%string
          then s
          else set_lastErr (Some ErrInvalidTermProgramVersion) s)
     end.
Proof.
  intros Ht He Hc Hf Hp. split; [apply SplitFrom_not_nil|].
  pose proof (detectColorLevelFromEnv_not_screen _ (GOOS w =? "windows")%string w s Ht) as E.
  cbv zeta in E. rewrite Hc, Hf, Hp, Split_dot_head in E. cbn in E.
  destruct (envValue w "TERM_PROGRAM_VERSION" =? "")%string eqn:Hv.
  - apply String.eqb_eq in Hv. rewrite Hv in *. cbn in E |- *.
    apply (detect_from_env_level fb w s _ _ (or_intror He) E). easy.
  - cbn in E.
    destruct (Strconv.Atoi (beforeDot (envValue w "TERM_PROGRAM_VERSION"))) as [i|].
    + destruct (i =? 3);
        apply (detect_from_env_level fb w s _ _ (or_intror He) E); easy.
    + apply (detect_from_env_level fb w s _ _ (or_intror He) E). easy.
Qed.

Lemma iterm_version_rule_witness :
  DetectColorLevel noFallback (itermVersion "3.4.1") freshState
    = (TermColorTrue, freshState)
  /\ DetectColorLevel noFallback (itermVersion "2.9") freshState
    = (TermColor256, freshState)
  /\ DetectColorLevel noFallback (itermVersion "abc") freshState
    = (TermColor256, set_lastErr (Some ErrInvalidTermProgramVersion) freshState)
  /\ DetectColorLevel noFallback itermNoVersion freshState
    = (TermColor256, freshState).
Proof.
  split; [|split; [|split]].
  - apply (proj2 (iterm_version_rule noFallback (itermVersion "3.4.1") freshState
      ltac:(vm_compute; discriminate) ltac:(vm_compute; discriminate)
      eq_refl eq_refl eq_refl)).
  - apply (proj2 (iterm_version_rule noFallback (itermVersion "2.9") freshState
      ltac:(vm_compute; discriminate) ltac:(vm_compute; discriminate)
      eq_refl eq_refl eq_refl)).
  - apply (proj2 (iterm_version_rule noFallback (itermVersion "abc") freshState
      ltac:(vm_compute; discriminate) ltac:(vm_compute; discriminate)
      eq_refl eq_refl eq_refl)).
  - apply (proj2 (iterm_version_rule noFallback itermNoVersion freshState
      ltac:(vm_compute; discriminate) ltac:(vm_compute; discriminate)
      eq_refl eq_refl eq_refl)).
Defined.

(** C8. When none of the environment-variable rules matches and the host is
    not of the Windows family: a non-empty TERM gives level Basic (no
    capability database is consulted, the state is untouched); an empty
    TERM makes [detectColorLevelFromEnv] report None and hands over to the
    fallback with that empty TERM, so that with no relevant variable set
    [DetectColorLevel] returns None, the fallback keeping None there. *)
Theorem no_rule_matches fb w s :
  GOOS w <> "windows" ->
  envValue w "TERM" <> "screen" ->
  envValue w "TERMINAL_EMULATOR" <> "JetBrains-JediTerm" ->
  envValue w "COLORTERM" = "" ->
  envValue w "FORCE_COLOR" = "" ->
  envValue w "TERM_PROGRAM" <> "Apple_Terminal" ->
  envValue w "TERM_PROGRAM" <> "Terminus" ->
  envValue w "TERM_PROGRAM" <> "Hyper" ->
  envValue w "TERM_PROGRAM" <> "iTerm.app" ->
  (envValue w "TERM" <> "" ->
   detectTermColorLevel fb w s = ((TermColor16, false), s)
   /\ DetectColorLevel fb w s = (TermColor16, s))
  /\
  (envValue w "TERM" = "" ->
   detectColorLevelFromEnv "" false w s = (TermColorNone, s)
   /\ detectTermColorLevel fb w s = fb "" w s
   /\ (fallbackNoneOnEmptyTerm fb -> noRelevantVars w ->
       result (DetectColorLevel fb) w s = TermColorNone)).
Proof.
  intros Hw Ht He Hc Hf Ha Hs Hh Hi.
  pose proof (detectColorLevelFromEnv_not_screen _ false w s Ht) as E.
  cbv zeta in E.
  apply string_eqb_neq in Hw, Ha, Hs, Hh, Hi.
  rewrite Hc, Hf, Ha, Hs, Hh, Hi in E.
  cbn [negb andb orb String.eqb Strings.Contains Strings.HasPrefix] in E.
  pose proof (detect_from_env_level fb w s) as L.
  pose proof (detectTermColorLevel_no_short_circuit fb w s (or_intror He)) as D.
  rewrite Hw in L, D.
  split.
  - intros Hn. apply string_eqb_neq in Hn. rewrite Hn in E. cbn [negb] in E.
    apply (L _ _ (or_intror He) E). easy.
  - intros Hn.
    assert (Hn' : (envValue w "TERM" =? "")%string = true) by now rewrite Hn.
    rewrite Hn' in E. cbn [negb] in E.
    rewrite E in D. cbv beta iota in D.
    change (ColorLevel_eqb TermColorNone TermColorNone) with true in D.
    cbv iota in D. rewrite Hn in E, D.
    split; [exact E|]. split; [exact D|].
    intros Hfb Hnone.
    unfold result, DetectColorLevel, bind, ret. rewrite D.
    specialize (Hfb w s). unfold result in Hfb.
    destruct (fb "" w s) as [r s1]. cbn in *. apply Hfb; [|exact Hnone].
    now apply String.eqb_neq.
Qed.

Lemma no_rule_matches_witness :
  DetectColorLevel noFallback vt100Host freshState = (TermColor16, freshState)
  /\ result (DetectColorLevel noFallback) bareHost freshState = TermColorNone.
Proof.
  split.
  - apply (proj1 (no_rule_matches noFallback vt100Host freshState
      ltac:(vm_compute; discriminate) ltac:(vm_compute; discriminate)
      ltac:(vm_compute; discriminate) eq_refl eq_refl
      ltac:(vm_compute; discriminate) ltac:(vm_compute; discriminate)
      ltac:(vm_compute; discriminate) ltac:(vm_compute; discriminate))).
    vm_compute. discriminate.
  - apply (proj2 (no_rule_matches noFallback bareHost freshState
      ltac:(vm_compute; discriminate) ltac:(vm_compute; discriminate)
      ltac:(vm_compute; discriminate) eq_refl eq_refl
      ltac:(vm_compute; discriminate) ltac:(vm_compute; discriminate)
      ltac:(vm_compute; discriminate) ltac:(vm_compute; discriminate))).
    + reflexivity.
    + intros w s _ _. reflexivity.
    + unfold noRelevantVars, relevantVars. repeat constructor.
Defined.

(** C9. The levels are totally ordered None < Basic < Extended < TrueColor
    by their numeric values, and the capability queries are monotone in
    that order: if the level of [s1] is below the level of [s2], each of
    [IsSupport256Color], [IsSupportColor] and [IsSupportTrueColor] that
    holds at [s1] holds at [s2]. *)
Theorem capability_queries_monotone (s1 s2 : State) :
  ColorLevel_val (colorLevel s1) < ColorLevel_val (colorLevel s2) ->
  (ColorLevel_val TermColorNone < ColorLevel_val TermColor16
   /\ ColorLevel_val TermColor16 < ColorLevel_val TermColor256
   /\ ColorLevel_val TermColor256 < ColorLevel_val TermColorTrue)
  /\ (IsSupport256Color s1 = true -> IsSupport256Color s2 = true)
  /\ (IsSupportColor s1 = true -> IsSupportColor s2 = true)
  /\ (IsSupportTrueColor s1 = true -> IsSupportTrueColor s2 = true).
Proof.
  unfold IsSupport256Color, IsSupportColor, IsSupportTrueColor, ColorLevel_eqb.
  destruct (colorLevel s1), (colorLevel s2); simpl; intros H;
    repeat split; intros; try reflexivity; try discriminate; try lia.
Qed.

Lemma capability_queries_monotone_witness :
  ColorLevel_val TermColor256 < ColorLevel_val TermColorTrue
  /\ IsSupport256Color (set_colorLevel TermColorTrue freshState) = true
  /\ IsSupportColor (set_colorLevel TermColorTrue freshState) = true.
Proof.
  assert (H : ColorLevel_val (colorLevel (set_colorLevel TermColor256 freshState))
              < ColorLevel_val (colorLevel (set_colorLevel TermColorTrue freshState)))
    by (simpl; lia).
  destruct (capability_queries_monotone _ _ H) as (_ & M256 & Mcolor & _).
  split; [exact H|]. split; [apply M256 | apply Mcolor]; reflexivity.
Defined.

(** ** The state a detection leaves behind *)

Lemma sameFlags_refl s : sameFlags s s.
Proof. now repeat split. Qed.

Lemma sameFlags_set_lastErr e s : sameFlags s (set_lastErr e s).
Proof. now repeat split. Qed.

(** [detectColorLevelFromEnv]: the level it reports does not depend on the
    state, and the state it leaves is the one it got, or that state with
    the version error recorded (and then the level is 256). *)
Lemma detectColorLevelFromEnv_effect termVal isWin w s :
  (forall s0, fst (detectColorLevelFromEnv termVal isWin w s0)
              = fst (detectColorLevelFromEnv termVal isWin w s))
  /\ (snd (detectColorLevelFromEnv termVal isWin w s) = s
      \/ (snd (detectColorLevelFromEnv termVal isWin w s)
            = set_lastErr (Some ErrInvalidTermProgramVersion) s
          /\ fst (detectColorLevelFromEnv termVal isWin w s) = TermColor256)).
Proof.
  unfold detectColorLevelFromEnv, noTrueColorTerm, bind, ret, Getenv, debugf, setLastErr.
  split; [intros s0|];
    repeat match goal with
           | |- context [if ?b then _ else _] => destruct b; cbn [fst snd]; auto
           | |- context [match ?o with Some _ => _ | None => _ end] =>
               destruct o; cbn [fst snd]; auto
           end.
Qed.

(** [detectWSL] writes nothing but its cache, the last-error slot and the
    open counter. *)
Lemma detectWSL_keeps_flags w s : sameFlags s (after detectWSL w s).
Proof.
  unfold after, detectWSL, setLastErr.
  destruct (detectedWSL s), (procVersion w), (procCloseErr w); now repeat split.
Qed.

Lemma detectWSL_ignores_lastErr w s e :
  result detectWSL w (set_lastErr e s) = result detectWSL w s.
Proof.
  unfold result, detectWSL, setLastErr.
  cbn [detectedWSL set_lastErr].
  destruct (detectedWSL s), (procVersion w), (procCloseErr w); reflexivity.
Qed.

Lemma wslFallback_keeps_flags : fallbackKeepsFlags wslFallback.
Proof.
  intros t w s. unfold wslFallback, after, bind, ret.
  pose proof (detectWSL_keeps_flags w s) as H. unfold after in H.
  now destruct (detectWSL w s).
Qed.

Lemma wslFallback_ignores_lastErr : fallbackIgnoresLastErr wslFallback.
Proof.
  intros t w s e. unfold wslFallback, result, bind, ret.
  pose proof (detectWSL_ignores_lastErr w s e) as H. unfold result in H.
  destruct (detectWSL w (set_lastErr e s)), (detectWSL w s).
  cbn in *. now subst.
Qed.

(** C10. A call of [DetectColorLevel] leaves the no-color flag, the
    supports-color flag, the saved backup value and the cached colour level
    as they were: apart from what the fallback does (by assumption only to
    the WSL probe cache and the last-error slot), the state afterwards is
    the state before, or that state with the version error recorded in the
    last-error slot.  The last-error slot is never read: the level returned
    is the same whatever the slot holds. *)
Theorem DetectColorLevel_frame fb w s :
  fallbackKeepsFlags fb ->
  fallbackIgnoresLastErr fb ->
  sameFlags s (after (DetectColorLevel fb) w s)
  /\ (forall e, result (DetectColorLevel fb) w (set_lastErr e s)
                = result (DetectColorLevel fb) w s)
  /\ (after (DetectColorLevel fb) w s = s
      \/ after (DetectColorLevel fb) w s
         = set_lastErr (Some ErrInvalidTermProgramVersion) s
      \/ after (DetectColorLevel fb) w s = after (fb (envValue w "TERM")) w s).
Proof.
  intros Hflags Hign.
  assert (R : forall s0, DetectColorLevel fb w s0
                         = (fst (fst (detectTermColorLevel fb w s0)),
                            snd (detectTermColorLevel fb w s0))).
  { intros s0. unfold DetectColorLevel, bind, ret.
    now destruct (detectTermColorLevel fb w s0). }
  unfold result, after. rewrite R. cbn [fst snd].
  destruct (String.eqb_spec (envValue w "TERM") "screen") as [Ht|Ht].
  - (* TERM=screen: no state is written *)
    destruct (screen_is_256 fb w s Ht) as [D _]. rewrite D. cbn [fst snd].
    split; [apply sameFlags_refl|]. split; [|now left].
    intros e. rewrite R.
    destruct (screen_is_256 fb w (set_lastErr e s) Ht) as [D' _]. now rewrite D'.
  - destruct (String.eqb_spec (envValue w "TERMINAL_EMULATOR") "JetBrains-JediTerm")
      as [He|He].
    + (* the JetBrains short-circuit *)
      destruct (jediterm_short_circuit fb w s Ht He) as [D _]. rewrite D. cbn [fst snd].
      split; [apply sameFlags_refl|]. split; [|now left].
      intros e. rewrite R.
      destruct (jediterm_short_circuit fb w (set_lastErr e s) Ht He) as [D' _].
      now rewrite D'.
    + (* the environment rules, then possibly the fallback *)
      assert (D : forall s0, detectTermColorLevel fb w s0 = _)
        by (intros s0; apply (detectTermColorLevel_no_short_circuit fb w s0 (or_intror He))).
      set (isWin := (GOOS w =? "windows")%string) in *.
      set (termVal := envValue w "TERM") in *.
      destruct (detectColorLevelFromEnv_effect termVal isWin w s) as [Hlvl Hst].
      split; [|split].
      * rewrite D.
        destruct (detectColorLevelFromEnv termVal isWin w s) as [level s1].
        cbn [fst snd] in *.
        assert (F1 : sameFlags s s1).
        { destruct Hst as [->|[-> _]];
            [apply sameFlags_refl | apply sameFlags_set_lastErr]. }
        destruct (ColorLevel_eqb level TermColorNone); [|exact F1].
        specialize (Hflags termVal w s1). unfold after in Hflags.
        destruct F1 as (F1 & F2 & F3 & F4), Hflags as (G1 & G2 & G3 & G4).
        repeat split; congruence.
      * intros e. rewrite R, !D. cbn [fst].
        pose proof (Hlvl (set_lastErr e s)) as Hl.
        destruct (detectColorLevelFromEnv_effect termVal isWin w (set_lastErr e s))
          as [_ Hst'].
        destruct (detectColorLevelFromEnv termVal isWin w (set_lastErr e s))
          as [level' s1'].
        destruct (detectColorLevelFromEnv termVal isWin w s) as [level s1].
        cbn [fst snd] in *. subst level'.
        destruct (ColorLevel_eqb level TermColorNone) eqn:B; [|reflexivity].
        apply ColorLevel_eqb_eq in B. subst level.
        destruct Hst as [->|[_ Hbad]]; [|discriminate Hbad].
        destruct Hst' as [->|[_ Hbad]]; [|discriminate Hbad].
        specialize (Hign termVal w s e). unfold result in Hign. now rewrite Hign.
      * rewrite D.
        destruct (detectColorLevelFromEnv termVal isWin w s) as [level s1].
        cbn [fst snd] in *.
        destruct (ColorLevel_eqb level TermColorNone) eqn:B.
        -- apply ColorLevel_eqb_eq in B. subst level.
           destruct Hst as [->|[_ Hbad]]; [|discriminate Hbad].
           right. right. reflexivity.
        -- cbn [snd]. destruct Hst as [->|[-> _]]; auto.
Qed.

Lemma DetectColorLevel_frame_witness :
  sameFlags freshState (after (DetectColorLevel wslFallback) wslHost freshState)
  /\ result (DetectColorLevel wslFallback) wslHost freshState = TermColorTrue
  /\ detectedWSL (after (DetectColorLevel wslFallback) wslHost freshState) = true.
Proof.
  split.
  - apply (DetectColorLevel_frame wslFallback wslHost freshState
             wslFallback_keeps_flags wslFallback_ignores_lastErr).
  - vm_compute. split; reflexivity.
Defined.

(** ** The testing overrides *)

(** What [ForceEnableColor] and [RevertColorSupport] do to the
    supports-color flag: forced to true, then put back. *)
Lemma force_then_revert_supportColor w w' s :
  supportColor (after ForceEnableColor w s) = true
  /\ backOldVal (after ForceEnableColor w s) = supportColor s
  /\ noColor (after ForceEnableColor w s) = false
  /\ supportColor (after RevertColorSupport w' (after ForceEnableColor w s))
     = supportColor s.
Proof. repeat split. Qed.

(** C1. [ForceEnableColor] writes the supports-color flag, while
    [IsSupportColor] reads the colour level: the query answers after the
    force what it answered before, and for a process whose level is None it
    answers false.  (The flag itself is forced to true and a following
    [RevertColorSupport] puts its old value back.) *)
Theorem ForceEnableColor_IsSupportColor_unchanged :
  (forall w s, IsSupportColor (after ForceEnableColor w s) = IsSupportColor s)
  /\ IsSupportColor (after ForceEnableColor bareHost freshState) = false
  /\ (forall w w' s,
        supportColor (after ForceEnableColor w s) = true
        /\ supportColor (after RevertColorSupport w' (after ForceEnableColor w s))
           = supportColor s).
Proof.
  split; [reflexivity|]. split; [reflexivity|].
  intros w w' s. split; reflexivity.
Qed.

(** C2. [RevertColorSupport] sets the no-color flag to "NO_COLOR is
    empty": afterwards [NoColor] is false on a host with NO_COLOR=1 and
    true on a host without NO_COLOR. *)
Theorem RevertColorSupport_NoColor_inverted :
  (forall w s,
     NoColor (after RevertColorSupport w s) = (envValue w "NO_COLOR" =? "")%string)
  /\ NoColor (after RevertColorSupport noColorHost freshState) = false
  /\ NoColor (after RevertColorSupport bareHost freshState) = true.
Proof.
  split; [reflexivity|]. split; vm_compute; reflexivity.
Qed.

(** ** The WSL probe *)

(** A failed open is "not WSL". *)
Lemma detectWSL_open_failure w s :
  procVersion w = None -> result detectWSL w s = false.
Proof.
  intros H. unfold result, detectWSL. rewrite H. now destruct (detectedWSL s).
Qed.

(** After any call the probe is marked as done. *)
Lemma detectWSL_marks_done w s : detectedWSL (after detectWSL w s) = true.
Proof.
  unfold after, detectWSL, setLastErr.
  destruct (detectedWSL s) eqn:E, (procVersion w), (procCloseErr w); cbn; auto.
Qed.

(** Once the probe is marked as done, a call answers false and changes
    nothing. *)
Lemma detectWSL_when_done w s :
  detectedWSL s = true -> detectWSL w s = (false, s).
Proof. intros H. unfold detectWSL. now rewrite H. Qed.

(** A call opens the probe file at most once, and not at all once the
    probe is marked as done. *)
Lemma detectWSL_opens w s :
  procOpens (after detectWSL w s)
  = if detectedWSL s then procOpens s else S (procOpens s).
Proof.
  unfold after, detectWSL, setLastErr.
  destruct (detectedWSL s), (procVersion w), (procCloseErr w); reflexivity.
Qed.

(** Calls after the first: every one answers false and the state, hence
    the cached probe contents and the open count, stays as the first call
    left it. *)
Lemma detectWSL_calls_when_done ws s :
  detectedWSL s = true ->
  detectWSL_calls ws s = (map (fun _ => false) ws, s).
Proof.
  intros H. induction ws as [|w ws IH]; simpl; [reflexivity|].
  rewrite (detectWSL_when_done w s H), IH. reflexivity.
Qed.

(** Over any number of calls in a fresh process the probe file is opened
    at most once, and the contents cached by the first call are the
    contents at the end. *)
Lemma detectWSL_calls_once w ws s :
  detectedWSL s = false ->
  let s1 := after detectWSL w s in
  let (bs, s') := detectWSL_calls (w :: ws) s in
  procOpens s' = S (procOpens s)
  /\ wslContents s' = wslContents s1
  /\ tl bs = map (fun _ => false) ws.
Proof.
  intros H. cbn zeta. simpl.
  pose proof (detectWSL_marks_done w s) as Hd.
  pose proof (detectWSL_opens w s) as Ho. rewrite H in Ho.
  unfold after in *. destruct (detectWSL w s) as [b s1]. cbn [snd] in *.
  rewrite (detectWSL_calls_when_done ws s1 Hd). now repeat split.
Qed.

(** C3. On a host whose [/proc/version] carries the WSL marker the first
    call of [detectWSL] answers true and the second answers false: the
    answer is not kept, only the mark that the probe ran. *)
Theorem detectWSL_second_call_differs :
  result detectWSL wslHost freshState = true
  /\ result detectWSL wslHost (after detectWSL wslHost freshState) = false
  /\ fst (detectWSL_calls [wslHost; wslHost; wslHost] freshState)
     = [true; false; false].
Proof. vm_compute. repeat split. Qed.

(** * Further properties of termenv *)

(** ** The remaining environment rules *)

(** With TERM not "screen", no JetBrains short-circuit and both COLORTERM
    and FORCE_COLOR empty, TERM_PROGRAM decides: "Apple_Terminal" gives 256
    colours, "Terminus" and "Hyper" give true colour; TERM and the host
    family play no part and the state is untouched. *)
Theorem term_program_rules fb w s :
  envValue w "TERM" <> "screen" ->
  envValue w "TERMINAL_EMULATOR" <> "JetBrains-JediTerm" ->
  envValue w "COLORTERM" = "" ->
  envValue w "FORCE_COLOR" = "" ->
  (envValue w "TERM_PROGRAM" = "Apple_Terminal" ->
   detectTermColorLevel fb w s = ((TermColor256, false), s))
  /\ (envValue w "TERM_PROGRAM" = "Terminus" \/ envValue w "TERM_PROGRAM" = "Hyper" ->
      detectTermColorLevel fb w s = ((TermColorTrue, false), s)).
Proof.
  intros Ht He Hc Hf.
  pose proof (detectColorLevelFromEnv_not_screen _ (GOOS w =? "windows")%string w s Ht) as E.
  cbv zeta in E. rewrite Hc, Hf in E.
  cbn [negb andb orb String.eqb Strings.Contains Strings.HasPrefix] in E.
  split.
  - intros Hp. rewrite Hp in E. cbn in E.
    apply (detect_from_env_level fb w s _ _ (or_intror He) E). easy.
  - intros [Hp|Hp]; rewrite Hp in E; cbn in E;
      apply (detect_from_env_level fb w s _ _ (or_intror He) E); easy.
Qed.

Lemma term_program_rules_witness :
  detectTermColorLevel noFallback appleTerminalHost freshState
    = ((TermColor256, false), freshState)
  /\ detectTermColorLevel noFallback hyperHost freshState
    = ((TermColorTrue, false), freshState).
Proof.
  split.
  - apply (proj1 (term_program_rules noFallback appleTerminalHost freshState
      ltac:(vm_compute; discriminate) ltac:(vm_compute; discriminate)
      eq_refl eq_refl)). reflexivity.
  - apply (proj2 (term_program_rules noFallback hyperHost freshState
      ltac:(vm_compute; discriminate) ltac:(vm_compute; discriminate)
      eq_refl eq_refl)). right. reflexivity.
Defined.

(** [detectColorLevelFromEnv] reports level None in exactly one situation:
    TERM is not "screen", COLORTERM and FORCE_COLOR are empty, TERM_PROGRAM
    is none of the four known programs, and the host is of the Windows
    family or TERM is empty. *)
Theorem env_level_none_iff termVal isWin w s :
  fst (detectColorLevelFromEnv termVal isWin w s) = TermColorNone
  <->
  termVal <> "screen"
  /\ envValue w "COLORTERM" = ""
  /\ envValue w "FORCE_COLOR" = ""
  /\ envValue w "TERM_PROGRAM" <> "Apple_Terminal"
  /\ envValue w "TERM_PROGRAM" <> "Terminus"
  /\ envValue w "TERM_PROGRAM" <> "Hyper"
  /\ envValue w "TERM_PROGRAM" <> "iTerm.app"
  /\ (isWin = true \/ termVal = "").
Proof.
  destruct (String.eqb_spec termVal "screen") as [Hs|Hs].
  { subst termVal. split; [discriminate | intros [H _]; now contradiction H]. }
  rewrite (detectColorLevelFromEnv_not_screen termVal isWin w s Hs). cbv zeta.
  destruct (String.eqb_spec (envValue w "COLORTERM") "") as [Hc|Hc].
  2:{ split.
      - destruct (_ || _); cbn; discriminate.
      - intros (_ & H & _). contradiction. }
  rewrite Hc. cbn [negb andb orb String.eqb Strings.Contains Strings.HasPrefix].
  destruct (String.eqb_spec (envValue w "FORCE_COLOR") "") as [Hf|Hf]; cbn [negb].
  2:{ split; [discriminate | intros (_ & _ & H & _); contradiction]. }
  destruct (String.eqb_spec (envValue w "TERM_PROGRAM") "Apple_Terminal") as [Ha|Ha].
  { split; [discriminate | intros (_ & _ & _ & H & _); contradiction]. }
  destruct (String.eqb_spec (envValue w "TERM_PROGRAM") "Terminus") as [Ht|Ht]; cbn [orb].
  { split; [discriminate | intros (_ & _ & _ & _ & H & _); contradiction]. }
  destruct (String.eqb_spec (envValue w "TERM_PROGRAM") "Hyper") as [Hh|Hh].
  { split; [discriminate | intros (_ & _ & _ & _ & _ & H & _); contradiction]. }
  destruct (String.eqb_spec (envValue w "TERM_PROGRAM") "iTerm.app") as [Hi|Hi].
  { split.
    - destruct (negb _); [|discriminate].
      destruct (Strconv.Atoi _) as [i|]; [destruct (i =? 3)|]; discriminate.
    - intros (_ & _ & _ & _ & _ & _ & H & _). contradiction. }
  destruct isWin; cbn [negb andb].
  { split; [intros _; repeat split; auto | reflexivity]. }
  destruct (String.eqb_spec termVal "") as [He|He]; cbn [negb fst].
  - split; [intros _; repeat split; auto | reflexivity].
  - split; [discriminate|]. intros (_ & _ & _ & _ & _ & _ & _ & [H|H]); [discriminate | contradiction].
Qed.

(** On a host of the Windows family, when no override variable matches,
    the value of TERM does not count: the answer of
    [detectTermColorLevel], level and [needVTP], is the fallback's. *)
Theorem windows_defers_to_fallback fb w s :
  GOOS w = "windows" ->
  envValue w "TERM" <> "screen" ->
  envValue w "TERMINAL_EMULATOR" <> "JetBrains-JediTerm" ->
  envValue w "COLORTERM" = "" ->
  envValue w "FORCE_COLOR" = "" ->
  envValue w "TERM_PROGRAM" <> "Apple_Terminal" ->
  envValue w "TERM_PROGRAM" <> "Terminus" ->
  envValue w "TERM_PROGRAM" <> "Hyper" ->
  envValue w "TERM_PROGRAM" <> "iTerm.app" ->
  detectTermColorLevel fb w s = fb (envValue w "TERM") w s.
Proof.
  intros Hw Ht He Hc Hf Ha Hs Hh Hi.
  pose proof (detectColorLevelFromEnv_not_screen _ true w s Ht) as E.
  cbv zeta in E.
  apply string_eqb_neq in Ha, Hs, Hh, Hi.
  rewrite Hc, Hf, Ha, Hs, Hh, Hi in E.
  cbn [negb andb orb String.eqb Strings.Contains Strings.HasPrefix] in E.
  rewrite detectTermColorLevel_no_short_circuit by (right; exact He).
  rewrite Hw. change ("windows" =? "windows")%string with true.
  rewrite E. reflexivity.
Qed.

Lemma windows_defers_to_fallback_witness :
  detectTermColorLevel wslFallback windowsXterm freshState
  = wslFallback "xterm" windowsXterm freshState.
Proof.
  apply (windows_defers_to_fallback wslFallback windowsXterm freshState eq_refl
    ltac:(vm_compute; discriminate) ltac:(vm_compute; discriminate) eq_refl eq_refl
    ltac:(vm_compute; discriminate) ltac:(vm_compute; discriminate)
    ltac:(vm_compute; discriminate) ltac:(vm_compute; discriminate)).
Defined.

(** [needVTP] comes from the fallback only: whenever
    [detectTermColorLevel] asks for virtual-terminal processing, the
    environment rules reported None and the whole answer is the fallback's
    for the value of TERM, run on the unchanged state. *)
Theorem needVTP_only_from_fallback fb w s :
  snd (result (detectTermColorLevel fb) w s) = true ->
  fst (detectColorLevelFromEnv (envValue w "TERM")
         (GOOS w =? "windows")%string w s) = TermColorNone
  /\ detectTermColorLevel fb w s = fb (envValue w "TERM") w s.
Proof.
  unfold result. intros H.
  assert (Hno : envValue w "TERM" = "screen"
                \/ envValue w "TERMINAL_EMULATOR" <> "JetBrains-JediTerm").
  { destruct (String.eqb_spec (envValue w "TERM") "screen") as [Ht|Ht]; [now left|].
    destruct (String.eqb_spec (envValue w "TERMINAL_EMULATOR") "JetBrains-JediTerm")
      as [He|He]; [|now right].
    exfalso. apply string_eqb_neq in Ht.
    unfold detectTermColorLevel, bind, ret, Getenv, runtimeGOOS, debugf,
      noTrueColorTerm in H.
    rewrite Ht in H. cbn in H. rewrite He in H. discriminate H. }
  rewrite detectTermColorLevel_no_short_circuit in H |- * by exact Hno.
  destruct (detectColorLevelFromEnv_effect (envValue w "TERM")
              (GOOS w =? "windows")%string w s) as [_ Hst].
  destruct (detectColorLevelFromEnv _ _ w s) as [level s1]. cbn [fst snd] in *.
  destruct (ColorLevel_eqb level TermColorNone) eqn:B; [|discriminate H].
  apply ColorLevel_eqb_eq in B. subst level.
  destruct Hst as [->|[_ Hbad]]; [|discriminate Hbad]. now split.
Qed.

Lemma needVTP_only_from_fallback_witness :
  detectTermColorLevel wslFallback wslHost freshState
  = wslFallback "" wslHost freshState.
Proof.
  apply (needVTP_only_from_fallback wslFallback wslHost freshState).
  vm_compute. reflexivity.
Defined.

(** ** The queries and the overrides *)

(** The three capability queries are nested: true colour implies 256
    colours, and 256 colours implies colour. *)
Theorem capability_chain (s : State) :
  implb (IsSupportTrueColor s) (IsSupport256Color s) = true
  /\ implb (IsSupport256Color s) (IsSupportColor s) = true.
Proof.
  unfold IsSupportTrueColor, IsSupport256Color, IsSupportColor, ColorLevel_eqb.
  destruct (colorLevel s); split; reflexivity.
Qed.

(** The names [String()] gives identify the level. *)
Theorem ColorLevel_String_inj (a b : ColorLevel) :
  ColorLevel_String a = ColorLevel_String b <-> a = b.
Proof.
  split; [|now intros ->].
  destruct a, b; simpl; intros H; try reflexivity; discriminate H.
Qed.

(** [ForceEnableColor] keeps one backup only: after two forces in a row
    the value from before the first is gone, and a [RevertColorSupport]
    (or any number of them) leaves the supports-color flag true whatever
    it was at the start. *)
Theorem force_twice_loses_backup w1 w2 w3 w4 s :
  let s2 := after ForceEnableColor w2 (after ForceEnableColor w1 s) in
  backOldVal s2 = true
  /\ supportColor (after RevertColorSupport w3 s2) = true
  /\ supportColor (after RevertColorSupport w4 (after RevertColorSupport w3 s2)) = true.
Proof. repeat split. Qed.

(** ** The WSL probe, continued *)

Lemma HasPrefix_bufString n data m :
  noNUL m = true ->
  Strings.HasPrefix (bufString n data) m = Strings.HasPrefix (firstBytes n data) m.
Proof.
  revert n data. induction m as [|a m IH]; intros n data Hm; [reflexivity|].
  simpl in Hm. apply andb_true_iff in Hm as [Ha Hm].
  destruct n as [|k]; [reflexivity|].
  destruct data as [|c rest]; cbn [bufString firstBytes Strings.HasPrefix].
  - rewrite Ascii.eqb_sym. apply negb_true_iff in Ha. now rewrite Ha.
  - now rewrite IH.
Qed.

Lemma Contains_zero_padding k m :
  m <> "" -> noNUL m = true -> Strings.Contains (bufString k "") m = false.
Proof.
  intros Hne Hm. destruct m as [|a m]; [easy|].
  simpl in Hm. apply andb_true_iff in Hm as [Ha _]. apply negb_true_iff in Ha.
  induction k as [|k IH]; [reflexivity|].
  change (bufString (S k) "") with (String "000"%char (bufString k "")).
  cbn [Strings.Contains Strings.HasPrefix].
  rewrite Ascii.eqb_sym, Ha. exact IH.
Qed.

Lemma Contains_bufString n data m :
  m <> "" -> noNUL m = true ->
  Strings.Contains (bufString n data) m = Strings.Contains (firstBytes n data) m.
Proof.
  intros Hne Hm. revert data. induction n as [|k IH]; intros data; [reflexivity|].
  destruct data as [|c rest].
  - rewrite Contains_zero_padding by assumption.
    destruct m; [easy | reflexivity].
  - change (bufString (S k) (String c rest)) with (String c (bufString k rest)).
    change (firstBytes (S k) (String c rest)) with (String c (firstBytes k rest)).
    cbn [Strings.Contains]. rewrite IH. f_equal.
    apply (HasPrefix_bufString (S k) (String c rest) m Hm).
Qed.

(** The buffer handed to [strings.Contains] is always 1024 bytes long. *)
Lemma bufString_length n data : String.length (bufString n data) = n.
Proof.
  revert data. induction n as [|k IH]; intros data; [reflexivity|].
  destruct data; simpl; now rewrite IH.
Qed.

(** The first call of [detectWSL] on a host whose [/proc/version] opens
    caches exactly 1024 bytes and answers whether the marker "Microsoft"
    lies within the first 1024 bytes that were read: the zero bytes that
    fill the buffer never make or complete a match, and a marker that
    starts later or straddles the limit is not seen. *)
Theorem detectWSL_sees_first_1024 w s data :
  detectedWSL s = false ->
  procVersion w = Some data ->
  result detectWSL w s = Strings.Contains (firstBytes 1024 data) "Microsoft"
  /\ String.length (wslContents (after detectWSL w s)) = 1024%nat.
Proof.
  intros Hd Hp. unfold result, after, detectWSL. rewrite Hd, Hp.
  cbn [negb fst snd wslContents set_wslContents].
  split; [|apply bufString_length].
  apply Contains_bufString; [easy | reflexivity].
Qed.

Lemma detectWSL_sees_first_1024_witness :
  result detectWSL wslHost freshState
  = Strings.Contains
      (firstBytes 1024 "Linux version 4.4.0-19041-Microsoft (Microsoft@Microsoft.com) (gcc version 5.4.0 (GCC) ) #488-Microsoft Mon Sep 01 13:43:00 PST 2020")
      "Microsoft".
Proof.
  apply (detectWSL_sees_first_1024 wslHost freshState _ eq_refl eq_refl).
Defined.

(** A probe that fails to open [/proc/version] is never retried: the call
    answers false and caches no contents, and every later call answers
    false without opening the file, even on a host where the file has
    become readable and carries the marker. *)
Theorem detectWSL_failure_not_retried w w' s :
  detectedWSL s = false ->
  procVersion w = None ->
  let s1 := after detectWSL w s in
  result detectWSL w s = false
  /\ wslContents s1 = wslContents s
  /\ lastErr s1 = lastErr s
  /\ detectWSL w' s1 = (false, s1).
Proof.
  intros Hd Hp. cbv zeta.
  split; [now apply detectWSL_open_failure|].
  split; [|split].
  - unfold after, detectWSL. now rewrite Hd, Hp.
  - unfold after, detectWSL. now rewrite Hd, Hp.
  - apply detectWSL_when_done, detectWSL_marks_done.
Qed.

Lemma detectWSL_failure_not_retried_witness :
  result detectWSL noProcHost freshState = false
  /\ detectWSL lateProcHost (after detectWSL noProcHost freshState)
     = (false, after detectWSL noProcHost freshState).
Proof.
  destruct (detectWSL_failure_not_retried noProcHost lateProcHost freshState
              eq_refl eq_refl) as (H1 & _ & _ & H4).
  split; [exact H1 | exact H4].
Defined.

Lemma detectWSL_calls_once_witness :
  let (bs, s') := detectWSL_calls [wslHost; noProcHost; lateProcHost] freshState in
  procOpens s' = 1%nat
  /\ wslContents s' = wslContents (after detectWSL wslHost freshState)
  /\ tl bs = [false; false].
Proof.
  apply (detectWSL_calls_once wslHost [noProcHost; lateProcHost] freshState eq_refl).
Defined.

(** An error from closing [/proc/version] is recorded in the last-error
    slot and changes nothing else: the answer and the cached contents are
    those of a clean close. *)
Theorem detectWSL_close_error w s data err :
  detectedWSL s = false ->
  procVersion w = Some data ->
  procCloseErr w = Some err ->
  let w0 := mkWorld (environ w) (GOOS w) (procVersion w) None in
  result detectWSL w s = result detectWSL w0 s
  /\ after detectWSL w s = set_lastErr (Some err) (after detectWSL w0 s).
Proof.
  intros Hd Hp Hc. cbv zeta. unfold result, after, detectWSL, setLastErr.
  cbn [procVersion procCloseErr]. rewrite Hd, Hp, Hc.
  cbn [negb fst snd]. split; reflexivity.
Qed.

Lemma detectWSL_close_error_witness :
  lastErr (after detectWSL
             (mkWorld ∅ "linux" (Some "Linux version 5.15") (Some (ErrOS "close")))
             freshState)
  = Some (ErrOS "close").
Proof.
  pose proof (detectWSL_close_error
                (mkWorld ∅ "linux" (Some "Linux version 5.15") (Some (ErrOS "close")))
                freshState _ _ eq_refl eq_refl eq_refl) as [_ H].
  rewrite H. reflexivity.
Defined.

(** * Package arrutil *)

Local Open Scope list_scope.

Lemma fillAnys_spec ss done i :
  length done = i ->
  Arrutil.fillAnys i ss (done ++ replicate (length ss) Arrutil.AnyNil)
  = done ++ (Arrutil.AnyString <$> ss).
Proof.
  revert done i. induction ss as [|s rest IH]; intros done i Hlen; [reflexivity|].
  cbn [Arrutil.fillAnys length replicate fmap list_fmap].
  assert (E : <[i := Arrutil.AnyString s]>
                (done ++ Arrutil.AnyNil :: replicate (length rest) Arrutil.AnyNil)
              = (done ++ [Arrutil.AnyString s])
                  ++ replicate (length rest) Arrutil.AnyNil).
  { subst i. rewrite insert_app_r_alt by lia. rewrite Nat.sub_diag. cbn.
    now rewrite <- app_assoc. }
  rewrite E, IH by (rewrite length_app; cbn; lia).
  now rewrite <- app_assoc.
Qed.

(** [StringsToAnys] returns a slice as long as its argument whose i-th
    element is the i-th string: the indexed loop fills every slot that
    [make] left nil, and never writes out of range.  [StringsToSlice] and
    [StringsToAnys] agree. *)
Theorem StringsToAnys_elements (ss : list string) :
  Arrutil.StringsToAnys ss = Arrutil.AnyString <$> ss
  /\ length (Arrutil.StringsToAnys ss) = length ss
  /\ (forall i, Arrutil.StringsToAnys ss !! i = Arrutil.AnyString <$> (ss !! i))
  /\ Arrutil.StringsToSlice ss = Arrutil.StringsToAnys ss.
Proof.
  assert (E : Arrutil.StringsToAnys ss = Arrutil.AnyString <$> ss).
  { unfold Arrutil.StringsToAnys. apply (fillAnys_spec ss [] 0%nat). reflexivity. }
  unfold Arrutil.StringsToSlice. rewrite E.
  split; [reflexivity|]. split; [apply length_fmap|].
  split; [|reflexivity]. intros i. apply list_lookup_fmap.
Qed.

Lemma tryIntsFrom_ok ss acc ints :
  Forall2 (fun s i => Strconv.Atoi s = Some i) ss ints ->
  Arrutil.tryIntsFrom ss acc = (acc ++ ints, None).
Proof.
  intros H. revert acc. induction H as [|s i ss ints Hs _ IH]; intros acc.
  - cbn. now rewrite app_nil_r.
  - cbn [Arrutil.tryIntsFrom]. unfold Arrutil.Atoi. rewrite Hs.
    rewrite IH. now rewrite <- app_assoc.
Qed.

Lemma tryIntsFrom_inv ss acc r :
  Arrutil.tryIntsFrom ss acc = (r, None) ->
  exists ints, r = acc ++ ints
               /\ Forall2 (fun s i => Strconv.Atoi s = Some i) ss ints.
Proof.
  revert acc. induction ss as [|s rest IH]; intros acc H.
  - cbn in H. injection H as <-. exists []. split; [now rewrite app_nil_r | constructor].
  - cbn [Arrutil.tryIntsFrom] in H. unfold Arrutil.Atoi in H.
    destruct (Strconv.Atoi s) as [i|] eqn:Hs; [|discriminate H].
    destruct (IH _ H) as (ints & -> & HF).
    exists (i :: ints). split; [now rewrite <- app_assoc | now constructor].
Qed.

(** [StringsTryInts] succeeds exactly when every element parses as an
    [int], and then returns the values in the order of the strings. *)
Theorem StringsTryInts_ok_iff (ss : list string) (ints : list Z) :
  Arrutil.StringsTryInts ss = (ints, None)
  <-> Forall2 (fun s i => Strconv.Atoi s = Some i) ss ints.
Proof.
  unfold Arrutil.StringsTryInts. split.
  - intros H. destruct (tryIntsFrom_inv _ _ _ H) as (ints' & -> & HF). exact HF.
  - intros H. apply (tryIntsFrom_ok ss [] ints H).
Qed.

Lemma tryIntsFrom_err ss acc r e :
  Arrutil.tryIntsFrom ss acc = (r, Some e) <->
  r = []
  /\ exists pre bad post,
       ss = pre ++ bad :: post
       /\ Forall (fun s => is_Some (Strconv.Atoi s)) pre
       /\ Strconv.Atoi bad = None
       /\ e = Arrutil.mkNumError "Atoi" bad.
Proof.
  revert acc. induction ss as [|s rest IH]; intros acc.
  - cbn. split; [discriminate|].
    intros (_ & pre & bad & post & H & _). now destruct pre.
  - cbn [Arrutil.tryIntsFrom]. unfold Arrutil.Atoi.
    destruct (Strconv.Atoi s) as [i|] eqn:Hs.
    + rewrite IH. split.
      * intros (-> & pre & bad & post & -> & Hpre & Hbad & ->).
        split; [reflexivity|]. exists (s :: pre), bad, post.
        split; [reflexivity|]. split; [|auto].
        constructor; [now rewrite Hs | exact Hpre].
      * intros (-> & pre & bad & post & Hss & Hpre & Hbad & ->).
        split; [reflexivity|].
        destruct pre as [|p pre]; cbn in Hss; injection Hss as -> ->.
        -- congruence.
        -- apply Forall_cons in Hpre as [_ Hpre]. exists pre, bad, post. auto.
    + split.
      * intros H. injection H as <- <-. split; [reflexivity|].
        exists [], s, rest. repeat split; auto.
      * intros (-> & pre & bad & post & Hss & Hpre & Hbad & ->).
        destruct pre as [|p pre]; cbn in Hss; injection Hss as -> ->.
        -- reflexivity.
        -- apply Forall_cons in Hpre as [[? Hp] _]. congruence.
Qed.

(** [StringsTryInts] fails exactly when some element does not parse; it
    then returns a nil slice, dropping the values already converted, and
    the error of the first element that does not parse. *)
Theorem StringsTryInts_error_iff (ss : list string) (r : list Z) (e : Arrutil.NumError) :
  Arrutil.StringsTryInts ss = (r, Some e)
  <->
  r = []
  /\ exists pre bad post,
       ss = pre ++ bad :: post
       /\ Forall (fun s => is_Some (Strconv.Atoi s)) pre
       /\ Strconv.Atoi bad = None
       /\ e = Arrutil.mkNumError "Atoi" bad.
Proof. apply tryIntsFrom_err. Qed.

(** [StringsAsInts] is all or nothing: the values in order when every
    element parses, and an empty slice as soon as one element does not -
    not the elements that did parse. *)
Theorem StringsAsInts_all_or_nothing (ss : list string) :
  Arrutil.StringsAsInts ss = default [] (mapM Strconv.Atoi ss).
Proof.
  unfold Arrutil.StringsAsInts, Arrutil.StringsTryInts.
  destruct (mapM Strconv.Atoi ss) as [ints|] eqn:Hm; cbn [default].
  - apply mapM_Some in Hm.
    assert (HF : Forall2 (fun s i => Strconv.Atoi s = Some i) ss ints)
      by (eapply Forall2_impl; [exact Hm | auto]).
    now rewrite (tryIntsFrom_ok ss [] ints HF).
  - destruct (Arrutil.tryIntsFrom ss []) as [r [e|]] eqn:Ht.
    + apply tryIntsFrom_err in Ht as [-> _]. reflexivity.
    + apply tryIntsFrom_inv in Ht as (ints & -> & HF).
      assert (Hs : mapM Strconv.Atoi ss = Some ints)
        by (apply mapM_Some; eapply Forall2_impl; [exact HF | auto]).
      congruence.
Qed.

(** Converting a concatenation: once the first part converts, the result
    for the whole is the first part's values followed by the second
    part's, or the second part's failure. *)
Theorem StringsTryInts_app (a b : list string) (ia : list Z) :
  Arrutil.StringsTryInts a = (ia, None) ->
  Arrutil.StringsTryInts (a ++ b)
  = match Arrutil.StringsTryInts b with
    | (ib, None) => (ia ++ ib, None)
    | (_, Some e) => ([], Some e)
    end.
Proof.
  unfold Arrutil.StringsTryInts. intros Ha.
  apply tryIntsFrom_inv in Ha as (ia' & -> & Ha). cbn [app].
  destruct (Arrutil.tryIntsFrom b []) as [ib [e|]] eqn:Hb.
  - apply tryIntsFrom_err.
    apply tryIntsFrom_err in Hb as (-> & pre & bad & post & -> & Hpre & Hbad & ->).
    split; [reflexivity|]. exists (a ++ pre), bad, post.
    rewrite <- app_assoc. repeat split; auto.
    apply Forall_app. split; [|exact Hpre].
    clear -Ha. induction Ha; constructor; eauto.
  - apply tryIntsFrom_inv in Hb as (ib' & -> & Hb). cbn [app].
    apply (tryIntsFrom_ok (a ++ b) [] (ia' ++ ib')). now apply Forall2_app.
Qed.

Lemma StringsTryInts_app_witness :
  Arrutil.StringsTryInts (["1"; "-2"] ++ ["+3"; "x4"; "5"])
  = ([], Some (Arrutil.mkNumError "Atoi" "x4")).
Proof.
  apply (StringsTryInts_app ["1"; "-2"] ["+3"; "x4"; "5"] [1; -2]). reflexivity.
Defined.

(** * Package testutil *)

(** ** The environment primitives *)

Lemma validKey_nonempty key : Golib.validKey key = true -> key <> "".
Proof. intros H ->. discriminate H. Qed.

Lemma Getenv_lookup e key :
  key <> "" -> Golib.Getenv e key = default "" (e !! key).
Proof.
  intros H. unfold Golib.Getenv. apply String.eqb_neq in H. now rewrite H.
Qed.

Lemma Getenv_valid e key :
  Golib.validKey key = true -> Golib.Getenv e key = default "" (e !! key).
Proof. intros H. apply Getenv_lookup, validKey_nonempty, H. Qed.

Lemma Setenv_valid key val e :
  Golib.validKey key = true -> Golib.validValue val = true ->
  Golib.Setenv key val e = (<[key := val]> e, None).
Proof. intros Hk Hv. unfold Golib.Setenv. now rewrite Hk, Hv. Qed.

Lemma Setenv_invalid key val e :
  Golib.validKey key && Golib.validValue val = false ->
  Golib.Setenv key val e = (e, Some (ErrOS "setenv: invalid argument")).
Proof. intros H. unfold Golib.Setenv. now rewrite H. Qed.

(** In a well-formed environment a variable that [os.Getenv] reports
    non-empty has a name and a value [os.Setenv] accepts. *)
Lemma wfEnv_Getenv e key :
  Testutil.wfEnv e -> Golib.Getenv e key <> "" ->
  Golib.validKey key = true /\ Golib.validValue (Golib.Getenv e key) = true.
Proof.
  intros Hwf Hne. unfold Golib.Getenv in *.
  destruct (key =? "")%string; [easy|].
  destruct (e !! key) as [v|] eqn:E; [|easy]. apply (Hwf _ _ E).
Qed.

(** Well-formedness of a given environment can be checked by running
    over its variables. *)
Lemma wfEnv_check e :
  forallb (fun kv => Golib.validKey kv.1 && Golib.validValue kv.2) (map_to_list e) = true ->
  Testutil.wfEnv e.
Proof.
  intros H k v Hkv. rewrite forallb_forall in H.
  apply elem_of_map_to_list, list_elem_of_In in Hkv.
  specialize (H _ Hkv). now apply andb_true_iff in H.
Qed.

(** ** MockEnvValue *)

(** [MockEnvValue] with a key and a value [os.Setenv] accepts, in a
    well-formed environment: the callback gets [val] and runs in the
    environment with [key] set to [val]; the call returns, [os.Getenv]
    reports for [key] what it reported before, whatever the callback did to
    that variable, and every other variable is as the callback left it. *)
Theorem MockEnvValue_restores key val fn e :
  Golib.validKey key = true ->
  Golib.validValue val = true ->
  Testutil.wfEnv e ->
  exists e',
    Testutil.MockEnvValue key val fn e = Testutil.Returned e'
    /\ Golib.Getenv e' key = Golib.Getenv e key
    /\ forall k, k <> key -> e' !! k = fn val (<[key := val]> e) !! k.
Proof.
  intros Hk Hv Hwf. unfold Testutil.MockEnvValue. cbv zeta.
  rewrite (Setenv_valid key val e Hk Hv).
  rewrite (Getenv_valid (<[key := val]> e) key Hk), lookup_insert_eq.
  change (default "" (Some val)) with val.
  set (e2 := fn val (<[key := val]> e)).
  destruct (String.eqb_spec (Golib.Getenv e key) "") as [Hold|Hold].
  - exists (Golib.Unsetenv key e2). split; [reflexivity|]. split.
    + rewrite Hold, (Getenv_valid _ key Hk). unfold Golib.Unsetenv.
      now rewrite lookup_delete_eq.
    + intros k Hne. unfold Golib.Unsetenv. now rewrite lookup_delete_ne.
  - destruct (wfEnv_Getenv e key Hwf Hold) as [_ Hov].
    rewrite (Setenv_valid key _ e2 Hk Hov).
    exists (<[key := Golib.Getenv e key]> e2). split; [reflexivity|]. split.
    + rewrite (Getenv_valid (<[key:=_]> e2) key Hk). now rewrite lookup_insert_eq.
    + intros k Hne. now rewrite lookup_insert_ne.
Qed.

Lemma MockEnvValue_restores_witness :
  exists e',
    Testutil.MockEnvValue "TERM" "screen" (fun _ e => delete "TERM" e)
      {[ "TERM" := "xterm"; "HOME" := "/root" ]} = Testutil.Returned e'
    /\ Golib.Getenv e' "TERM" = "xterm".
Proof.
  destruct (MockEnvValue_restores "TERM" "screen" (fun _ e => delete "TERM" e)
              {[ "TERM" := "xterm"; "HOME" := "/root" ]} eq_refl eq_refl)
    as (e' & H1 & H2 & _).
  - apply wfEnv_check. vm_compute. reflexivity.
  - exists e'. split; [exact H1|]. rewrite H2. reflexivity.
Defined.

(** With a key or a value [os.Setenv] rejects (an empty key, a key with
    ['='] or a zero byte, a value with a zero byte) [MockEnvValue] panics
    with the error of [os.Setenv] before the callback is run. *)
Theorem MockEnvValue_invalid_panics key val fn e :
  Golib.validKey key && Golib.validValue val = false ->
  Testutil.MockEnvValue key val fn e
  = Testutil.Panicked (Testutil.PanicError (ErrOS "setenv: invalid argument")).
Proof.
  intros H. unfold Testutil.MockEnvValue. now rewrite (Setenv_invalid key val e H).
Qed.

Lemma MockEnvValue_invalid_panics_witness :
  Testutil.MockEnvValue "A=B" "1" (fun _ _ => ∅) {[ "HOME" := "/root" ]}
  = Testutil.Panicked (Testutil.PanicError (ErrOS "setenv: invalid argument")).
Proof. apply MockEnvValue_invalid_panics. reflexivity. Defined.

(** A variable that was set to the empty string is not put back:
    [MockEnvValue] treats it as unset and removes it, so the environment
    afterwards differs from the one before even when the callback changes
    nothing. *)
Theorem MockEnvValue_empty_becomes_unset key val e :
  Golib.validKey key = true ->
  Golib.validValue val = true ->
  e !! key = Some "" ->
  Testutil.MockEnvValue key val (fun _ e1 => e1) e = Testutil.Returned (delete key e)
  /\ delete key e <> e.
Proof.
  intros Hk Hv He. unfold Testutil.MockEnvValue. cbv zeta.
  rewrite (Setenv_valid key val e Hk Hv), (Getenv_valid e key Hk), He.
  cbn [default String.eqb]. unfold Golib.Unsetenv. split.
  - now rewrite delete_insert_eq.
  - intros Heq. assert (H : delete key e !! key = Some "") by now rewrite Heq.
    rewrite lookup_delete_eq in H. discriminate H.
Qed.

Lemma MockEnvValue_empty_becomes_unset_witness :
  Testutil.MockEnvValue "NO_COLOR" "1" (fun _ e1 => e1) {[ "NO_COLOR" := "" ]}
  = Testutil.Returned (delete "NO_COLOR" {[ "NO_COLOR" := "" ]}).
Proof.
  apply (MockEnvValue_empty_becomes_unset "NO_COLOR" "1" {[ "NO_COLOR" := "" ]}
           eq_refl eq_refl).
  apply lookup_singleton_eq.
Defined.

(** ** Loops over a map *)

Lemma rangeOf_map_to_list m : rangeOf m (map_to_list m).
Proof. unfold rangeOf. reflexivity. Qed.

Lemma rangeOf_NoDup m kvs : rangeOf m kvs -> NoDup kvs.*1.
Proof.
  unfold rangeOf. intros H. rewrite H. apply NoDup_fst_map_to_list.
Qed.

Lemma rangeOf_list_to_map m kvs : rangeOf m kvs -> list_to_map kvs = m.
Proof.
  intros H. rewrite <- (list_to_map_to_list m).
  apply list_to_map_proper; [eapply rangeOf_NoDup, H | exact H].
Qed.

Lemma rangeOf_keys m kvs k : rangeOf m kvs -> k ∈ kvs.*1 <-> is_Some (m !! k).
Proof.
  intros H. rewrite <- (rangeOf_list_to_map m kvs H).
  rewrite <- not_eq_None_Some, <- not_elem_of_list_to_map.
  destruct (decide (k ∈ kvs.*1)); tauto.
Qed.

Lemma Setenv_lookup key val e k :
  (Golib.Setenv key val e).1 !! k
  = if decide (k = key) then afterSetenv key val (e !! k) else e !! k.
Proof.
  unfold Golib.Setenv, afterSetenv.
  destruct (Golib.validKey key && Golib.validValue val); cbn [fst];
    destruct (decide (k = key)) as [->|Hne]; auto.
  - apply lookup_insert_eq.
  - now apply lookup_insert_ne.
Qed.

(** The setting loop, variable by variable. *)
Lemma setAll_lookup kvs e k :
  NoDup kvs.*1 ->
  Testutil.setAll kvs e !! k
  = match (list_to_map kvs : gmap string string) !! k with
    | Some v => afterSetenv k v (e !! k)
    | None => e !! k
    end.
Proof.
  revert e. induction kvs as [|[k0 v0] rest IH]; intros e Hnd.
  - cbn. now rewrite lookup_empty.
  - cbn [fmap list_fmap fst] in Hnd. apply NoDup_cons in Hnd as [Hk0 Hnd].
    cbn [Testutil.setAll]. rewrite IH by exact Hnd.
    change (list_to_map ((k0, v0) :: rest) : gmap string string)
      with (<[k0 := v0]> (list_to_map rest : gmap string string)).
    rewrite Setenv_lookup.
    destruct (decide (k = k0)) as [->|Hne].
    + rewrite lookup_insert_eq, (not_elem_of_list_to_map_1 rest k0 Hk0). reflexivity.
    + rewrite lookup_insert_ne by congruence. reflexivity.
Qed.

Lemma unsetAll_lookup keys e k :
  Testutil.unsetAll keys e !! k = if decide (k ∈ keys) then None else e !! k.
Proof.
  revert e. induction keys as [|k0 rest IH]; intros e; cbn [Testutil.unsetAll].
  - destruct (decide (k ∈ [])) as [H|_]; [now apply elem_of_nil in H | reflexivity].
  - rewrite IH. unfold Golib.Unsetenv.
    destruct (decide (k ∈ rest)) as [Hin|Hnin].
    + rewrite decide_True by (now right). reflexivity.
    + destruct (decide (k = k0)) as [->|Hne].
      * rewrite decide_True by (now left). apply lookup_delete_eq.
      * rewrite decide_False by (rewrite elem_of_cons; tauto).
        now apply lookup_delete_ne.
Qed.

Lemma backupAndSet_env kvs bk e :
  (Testutil.backupAndSet kvs bk e).2 = Testutil.setAll kvs e.
Proof.
  revert bk e. induction kvs as [|[k0 v0] rest IH]; intros bk e; [reflexivity|].
  cbn [Testutil.backupAndSet Testutil.setAll]. apply IH.
Qed.

Lemma Getenv_Setenv_ne key val e k :
  k <> key -> Golib.Getenv (Golib.Setenv key val e).1 k = Golib.Getenv e k.
Proof.
  intros Hne. unfold Golib.Getenv. rewrite Setenv_lookup.
  now rewrite decide_False by exact Hne.
Qed.

Lemma backupAndSet_backups kvs bk e k :
  NoDup kvs.*1 ->
  (Testutil.backupAndSet kvs bk e).1 !! k
  = if decide (k ∈ kvs.*1) then Some (Golib.Getenv e k) else bk !! k.
Proof.
  revert bk e. induction kvs as [|[k0 v0] rest IH]; intros bk e Hnd.
  - cbn. destruct (decide (k ∈ [])) as [H|_]; [now apply elem_of_nil in H | reflexivity].
  - cbn [fmap list_fmap fst] in Hnd |- *. apply NoDup_cons in Hnd as [Hk0 Hnd].
    cbn [Testutil.backupAndSet]. rewrite IH by exact Hnd.
    destruct (decide (k ∈ rest.*1)) as [Hin|Hnin].
    + rewrite decide_True by (now right).
      rewrite Getenv_Setenv_ne; [reflexivity|]. intros ->. contradiction.
    + destruct (decide (k = k0)) as [->|Hne].
      * rewrite decide_True by (now left). apply lookup_insert_eq.
      * rewrite decide_False by (rewrite elem_of_cons; tauto).
        now apply lookup_insert_ne.
Qed.

Lemma restoreBackups_lookup keys bk e k :
  Testutil.restoreBackups keys bk e !! k
  = if decide (k ∈ keys)
    then (let old := default "" (bk !! k) in
          if (old =? "")%string then None else afterSetenv k old (e !! k))
    else e !! k.
Proof.
  revert e. induction keys as [|k0 rest IH]; intros e; cbn [Testutil.restoreBackups].
  - destruct (decide (k ∈ [])) as [H|_]; [now apply elem_of_nil in H | reflexivity].
  - rewrite IH. cbv zeta.
    set (step := if (default "" (bk !! k0) =? "")%string
                 then Golib.Unsetenv k0 e
                 else (Golib.Setenv k0 (default "" (bk !! k0)) e).1).
    assert (Hother : k <> k0 -> step !! k = e !! k).
    { intros Hne. unfold step, Golib.Unsetenv.
      destruct (default "" (bk !! k0) =? "")%string.
      - now apply lookup_delete_ne.
      - rewrite Setenv_lookup. now rewrite decide_False. }
    assert (Hsame : step !! k0
                    = if (default "" (bk !! k0) =? "")%string then None
                      else afterSetenv k0 (default "" (bk !! k0)) (e !! k0)).
    { unfold step, Golib.Unsetenv.
      destruct (default "" (bk !! k0) =? "")%string.
      - apply lookup_delete_eq.
      - rewrite Setenv_lookup. now rewrite decide_True. }
    destruct (decide (k = k0)) as [->|Hne].
    + rewrite (decide_True (P := k0 ∈ k0 :: rest)) by (now left).
      destruct (decide (k0 ∈ rest)) as [_|_]; [|exact Hsame].
      rewrite Hsame.
      destruct (default "" (bk !! k0) =? "")%string; [reflexivity|].
      unfold afterSetenv. now destruct (_ && _).
    + rewrite (Hother Hne).
      destruct (decide (k ∈ rest)) as [Hin|Hnin].
      * rewrite decide_True by (now right). reflexivity.
      * rewrite decide_False by (rewrite elem_of_cons; tauto). reflexivity.
Qed.

(** ** MockEnvValues *)

(** [MockEnvValues] in a well-formed environment, whatever the order in
    which Go ranges over [kvMap] in either loop: the callback runs in the
    environment where every entry [os.Setenv] accepts is set (the others
    are skipped silently); afterwards [os.Getenv] reports for every key of
    [kvMap] what it reported before the call, whatever the callback did to
    it, and the variables outside [kvMap] are as the callback left them. *)
Theorem MockEnvValues_restores kvMap order1 order2 fn e :
  rangeOf kvMap order1 ->
  order2 ≡ₚ order1.*1 ->
  Testutil.wfEnv e ->
  let e1 := (Testutil.backupAndSet order1 ∅ e).2 in
  let e' := Testutil.MockEnvValuesIn order1 order2 fn e in
  (forall k, e1 !! k = match kvMap !! k with
                       | Some v => afterSetenv k v (e !! k)
                       | None => e !! k
                       end)
  /\ (forall k, is_Some (kvMap !! k) -> Golib.Getenv e' k = Golib.Getenv e k)
  /\ (forall k, kvMap !! k = None -> e' !! k = fn e1 !! k).
Proof.
  intros Hr Hp Hwf. cbv zeta.
  pose proof (rangeOf_NoDup _ _ Hr) as Hnd.
  pose proof (rangeOf_list_to_map _ _ Hr) as Hm.
  assert (Hkeys : forall k, k ∈ order2 <-> is_Some (kvMap !! k)).
  { intros k. rewrite Hp. apply rangeOf_keys, Hr. }
  unfold Testutil.MockEnvValuesIn.
  pose proof (backupAndSet_env order1 ∅ e) as Henv.
  pose proof (fun k => backupAndSet_backups order1 ∅ e k Hnd) as Hbk.
  destruct (Testutil.backupAndSet order1 ∅ e) as [bk e1]. cbn [fst snd] in *.
  subst e1. split; [|split].
  - intros k. rewrite setAll_lookup by exact Hnd. now rewrite Hm.
  - intros k Hk. unfold Golib.Getenv at 1.
    destruct (String.eqb_spec k "") as [->|Hne]; [reflexivity|].
    rewrite restoreBackups_lookup.
    rewrite decide_True by (now apply Hkeys).
    rewrite Hbk. rewrite decide_True by (now apply (rangeOf_keys _ _ _ Hr)).
    change (default "" (Some (Golib.Getenv e k))) with (Golib.Getenv e k).
    cbv zeta.
    destruct (String.eqb_spec (Golib.Getenv e k) "") as [Hold|Hold].
    + now rewrite Hold.
    + destruct (wfEnv_Getenv e k Hwf Hold) as [Hvk Hvv].
      unfold afterSetenv. now rewrite Hvk, Hvv.
  - intros k Hk. rewrite restoreBackups_lookup.
    rewrite decide_False; [reflexivity|].
    rewrite Hkeys, Hk. now intros [? ?].
Qed.

Lemma MockEnvValues_restores_witness :
  Golib.Getenv
    (Testutil.MockEnvValues {[ "TERM" := "screen"; "NO_COLOR" := "1" ]}
       (fun _ => ∅) {[ "TERM" := "xterm"; "HOME" := "/root" ]}) "TERM"
  = "xterm".
Proof.
  pose proof (MockEnvValues_restores {[ "TERM" := "screen"; "NO_COLOR" := "1" ]}
                _ _ (fun _ => ∅) {[ "TERM" := "xterm"; "HOME" := "/root" ]}
                (rangeOf_map_to_list _) (reflexivity _)) as H.
  destruct H as (_ & H & _).
  - apply wfEnv_check. vm_compute. reflexivity.
  - unfold Testutil.MockEnvValues. rewrite H; [reflexivity|].
    vm_compute. eauto.
Defined.

(** The order in which Go ranges over [kvMap], in either loop, makes no
    difference to [MockEnvValues]. *)
Theorem MockEnvValues_order_irrelevant kvMap order1 order2 fn e :
  rangeOf kvMap order1 ->
  order2 ≡ₚ order1.*1 ->
  Testutil.MockEnvValuesIn order1 order2 fn e = Testutil.MockEnvValues kvMap fn e.
Proof.
  intros Hr Hp. unfold Testutil.MockEnvValues.
  pose proof (rangeOf_map_to_list kvMap) as Hr0.
  assert (Hstep : forall o, rangeOf kvMap o ->
            Testutil.backupAndSet o ∅ e
            = Testutil.backupAndSet (map_to_list kvMap) ∅ e).
  { intros o Ho.
    pose proof (backupAndSet_env o ∅ e) as E1.
    pose proof (backupAndSet_env (map_to_list kvMap) ∅ e) as E2.
    pose proof (fun k => backupAndSet_backups o ∅ e k (rangeOf_NoDup _ _ Ho)) as B1.
    pose proof (fun k => backupAndSet_backups (map_to_list kvMap) ∅ e k
                           (rangeOf_NoDup _ _ Hr0)) as B2.
    destruct (Testutil.backupAndSet o ∅ e) as [b1 e1].
    destruct (Testutil.backupAndSet (map_to_list kvMap) ∅ e) as [b2 e2].
    cbn [fst snd] in *. f_equal.
    - apply map_eq. intros k. rewrite B1, B2.
      destruct (decide (k ∈ o.*1)) as [H|H];
        destruct (decide (k ∈ (map_to_list kvMap).*1)) as [H0|H0]; try reflexivity;
        rewrite (rangeOf_keys _ _ k Ho) in H;
        rewrite (rangeOf_keys _ _ k Hr0) in H0; contradiction.
    - subst e1 e2. apply map_eq. intros k.
      rewrite !setAll_lookup by (eapply rangeOf_NoDup; eauto).
      now rewrite (rangeOf_list_to_map _ _ Ho), (rangeOf_list_to_map _ _ Hr0). }
  unfold Testutil.MockEnvValuesIn. rewrite (Hstep order1 Hr).
  destruct (Testutil.backupAndSet (map_to_list kvMap) ∅ e) as [bk e1].
  apply map_eq. intros k. rewrite !restoreBackups_lookup.
  destruct (decide (k ∈ order2)) as [H|H];
    destruct (decide (k ∈ (map_to_list kvMap).*1)) as [H0|H0]; try reflexivity;
    rewrite Hp, (rangeOf_keys _ _ k Hr) in H;
    rewrite (rangeOf_keys _ _ k Hr0) in H0; contradiction.
Qed.

Lemma MockEnvValues_order_irrelevant_witness :
  Testutil.MockEnvValuesIn [("B", "2"); ("A", "1")] ["A"; "B"] (fun e => e) ∅
  = Testutil.MockEnvValues {[ "A" := "1"; "B" := "2" ]} (fun e => e) ∅.
Proof.
  apply MockEnvValues_order_irrelevant.
  - unfold rangeOf. vm_compute. first [reflexivity | apply perm_swap].
  - apply perm_swap.
Defined.

(** ** The backup of the whole environment *)

Lemma list_fmap_map {A B} (f : A -> B) (l : list A) : f <$> l = map f l.
Proof. induction l; cbn; congruence. Qed.

Lemma SplitNFrom_no_eq s cur :
  Golib.hasByte "=" s = false ->
  Golib.SplitNFrom s "=" O cur 1 = [(cur ++ s)%string].
Proof.
  revert cur. induction s as [|c rest IH]; intros cur H.
  - cbn. now rewrite append_empty_r.
  - cbn [Golib.hasByte] in H. apply orb_false_iff in H as [Hc Hrest].
    cbn [Golib.SplitNFrom Strings.HasPrefix]. rewrite Hc. cbn [andb].
    rewrite IH by exact Hrest. now rewrite append_snoc.
Qed.

Lemma SplitNFrom_key_value k v cur :
  Golib.hasByte "=" k = false ->
  Golib.SplitNFrom (k ++ String "=" v)%string "=" O cur 1 = [(cur ++ k)%string; v].
Proof.
  revert cur. induction k as [|c rest IH]; intros cur H.
  - change ("" ++ String "=" v)%string with (String "=" v).
    cbn [Golib.SplitNFrom Strings.HasPrefix]. rewrite Ascii.eqb_refl. cbn [andb].
    rewrite append_empty_r. now destruct v.
  - cbn [Golib.hasByte] in H. apply orb_false_iff in H as [Hc Hrest].
    rewrite append_cons. cbn [Golib.SplitNFrom Strings.HasPrefix]. rewrite Hc. cbn [andb].
    rewrite IH by exact Hrest. now rewrite append_snoc.
Qed.

Lemma SplitNFrom_with_eq s cur :
  Golib.hasByte "=" s = true ->
  exists a b, Golib.SplitNFrom s "=" O cur 1 = [a; b].
Proof.
  revert cur. induction s as [|c rest IH]; intros cur H; [discriminate H|].
  cbn [Golib.hasByte] in H. cbn [Golib.SplitNFrom Strings.HasPrefix].
  destruct (Ascii.eqb c "=") eqn:Hc; cbn [andb].
  - destruct rest; eauto.
  - apply IH. exact H.
Qed.

(** [strings.SplitN(s, "=", 2)] cuts a "key=value" entry at its first
    ['=']: it gives back the key and the value when the key has no ['='],
    and a single piece when the entry has none. *)
Lemma SplitN_entry k v :
  Golib.hasByte "=" k = false ->
  Golib.SplitN (k ++ "=" ++ v)%string "=" 2 = [k; v].
Proof. intros H. apply (SplitNFrom_key_value k v "" H). Qed.

Lemma setFromBak_entries kvs e :
  Forall (fun kv => Golib.hasByte "=" kv.1 = false) kvs ->
  Testutil.setFromBak ((fun kv => (kv.1 ++ "=" ++ kv.2)%string) <$> kvs) e
  = Testutil.Returned (Testutil.setAll kvs e).
Proof.
  intros H. revert e. induction H as [|[k v] rest Hk _ IH]; intros e; [reflexivity|].
  cbn [fmap list_fmap Testutil.setFromBak Testutil.setAll fst snd].
  rewrite (SplitN_entry k v Hk). apply IH.
Qed.

Lemma validKey_no_eq k : Golib.validKey k = true -> Golib.hasByte "=" k = false.
Proof.
  unfold Golib.validKey. intros H.
  apply andb_true_iff in H as [H _]. apply andb_true_iff in H as [_ H].
  now apply negb_true_iff in H.
Qed.

Lemma setFromBak_Environ bak e0 e :
  Testutil.wfEnv e0 ->
  bak ≡ₚ Golib.Environ e0 ->
  Testutil.setFromBak bak (Golib.Clearenv e) = Testutil.Returned e0.
Proof.
  intros Hwf Hp. unfold Golib.Environ in Hp. rewrite list_fmap_map in Hp.
  apply Permutation_map_inv in Hp as (kvs & -> & Hkvs).
  rewrite <- list_fmap_map.
  assert (Hr : rangeOf e0 kvs) by (unfold rangeOf; now symmetry).
  assert (Hin : forall k v, (k, v) ∈ kvs -> e0 !! k = Some v).
  { intros k v H. apply elem_of_map_to_list. unfold rangeOf in Hr. now rewrite <- Hr. }
  rewrite setFromBak_entries.
  - f_equal. apply map_eq. intros k.
    rewrite setAll_lookup by (eapply rangeOf_NoDup, Hr).
    rewrite (rangeOf_list_to_map _ _ Hr). unfold Golib.Clearenv.
    destruct (e0 !! k) as [v|] eqn:E; [|apply lookup_empty].
    destruct (Hwf _ _ E) as [Hk Hv]. unfold afterSetenv. now rewrite Hk, Hv.
  - apply Forall_forall. intros [k v] H. cbn [fst].
    apply validKey_no_eq. apply (Hwf k v), Hin, H.
Qed.

(** Round trip of the environment backup: if [envBak] holds the entries
    of a well-formed environment [e0] (in any order), then [RevertOSEnv],
    [RunOnCleanEnv], [MockCleanOsEnv] and [MockOsEnv] all return with the
    environment equal to [e0], whatever the environment was at the call,
    whatever map was mocked and whatever the callback did. *)
Theorem clean_env_restores_backup e0 st mp fn :
  Testutil.wfEnv e0 ->
  Testutil.envBak st ≡ₚ Golib.Environ e0 ->
  let restored :=
    Testutil.Returned
      (Testutil.mkState e0 (Testutil.envGroupSet st) (Testutil.envBak st)) in
  Testutil.RevertOSEnv st = restored
  /\ Testutil.RunOnCleanEnv fn st = restored
  /\ Testutil.MockCleanOsEnv mp fn st = restored
  /\ Testutil.MockOsEnv mp fn st = restored.
Proof.
  intros Hwf Hp. cbv zeta.
  unfold Testutil.MockOsEnv, Testutil.MockCleanOsEnv, Testutil.RunOnCleanEnv,
    Testutil.RevertOSEnv.
  cbn [Testutil.env Testutil.envBak Testutil.envGroupSet].
  rewrite !(setFromBak_Environ _ e0 _ Hwf Hp). repeat split.
Qed.

Lemma clean_env_restores_backup_witness :
  Testutil.MockCleanOsEnv {[ "APP_ENV" := "dev" ]} (fun _ => {[ "X" := "y" ]})
    (Testutil.mkState {[ "TMP" := "1" ]} ∅ ["HOME=/root"; "PATH=/bin:/usr/bin"])
  = Testutil.Returned
      (Testutil.mkState {[ "HOME" := "/root"; "PATH" := "/bin:/usr/bin" ]} ∅
         ["HOME=/root"; "PATH=/bin:/usr/bin"]).
Proof.
  apply (clean_env_restores_backup {[ "HOME" := "/root"; "PATH" := "/bin:/usr/bin" ]}).
  - apply wfEnv_check. vm_compute. reflexivity.
  - cbn [Testutil.envBak]. vm_compute. reflexivity.
Defined.

Lemma SplitN_bare s :
  Golib.hasByte "=" s = false -> Golib.SplitN s "=" 2 = [s].
Proof. intros H. apply (SplitNFrom_no_eq s "" H). Qed.

Lemma setFromBak_bare bak e :
  Exists (fun str => Golib.hasByte "=" str = false) bak ->
  Testutil.setFromBak bak e
  = Testutil.Panicked
      (Testutil.PanicRuntime "index out of range [1] with length 1").
Proof.
  intros H. revert e. induction bak as [|str rest IH]; intros e.
  - now apply Exists_nil in H.
  - cbn [Testutil.setFromBak].
    destruct (Golib.hasByte "=" str) eqn:Hs.
    + destruct (SplitNFrom_with_eq str "" Hs) as (a & b & Hab).
      change (Golib.SplitN str "=" 2) with (Golib.SplitNFrom str "=" 0 "" 1).
      rewrite Hab.
      apply IH. apply Exists_cons in H as [H|H]; [congruence | exact H].
    + now rewrite (SplitN_bare str Hs).
Qed.

(** An entry of [envBak] without ['='] makes [RevertOSEnv] panic on
    [nodes[1]]; [RunOnCleanEnv] and [MockCleanOsEnv] then panic as well,
    after the callback has run. *)
Theorem clean_env_panics_on_bare_entry st mp fn :
  Exists (fun str => Golib.hasByte "=" str = false) (Testutil.envBak st) ->
  let crash :=
    Testutil.Panicked
      (Testutil.PanicRuntime "index out of range [1] with length 1") in
  Testutil.RevertOSEnv st = crash
  /\ Testutil.RunOnCleanEnv fn st = crash
  /\ Testutil.MockCleanOsEnv mp fn st = crash.
Proof.
  intros H. cbv zeta.
  unfold Testutil.MockCleanOsEnv, Testutil.RunOnCleanEnv, Testutil.RevertOSEnv.
  cbn [Testutil.env Testutil.envBak Testutil.envGroupSet].
  rewrite !(setFromBak_bare _ _ H). repeat split.
Qed.

Lemma clean_env_panics_on_bare_entry_witness :
  Testutil.RevertOSEnv (Testutil.mkState ∅ ∅ ["HOME=/root"; "BARE"; "A=b"])
  = Testutil.Panicked
      (Testutil.PanicRuntime "index out of range [1] with length 1").
Proof.
  apply (clean_env_panics_on_bare_entry
           (Testutil.mkState ∅ ∅ ["HOME=/root"; "BARE"; "A=b"]) ∅ (fun e => e)).
  cbn [Testutil.envBak]. right. left. reflexivity.
Defined.

(** [MockCleanOsEnv] isolates its callback both ways.  The callback runs
    in an environment that holds the accepted entries of [mp] and nothing
    else: no variable of the process shows through, and an entry
    [os.Setenv] rejects is simply missing.  And nothing of the mocked map
    or of what the callback did to the environment survives: the call ends
    as [RevertOSEnv] alone would, as does [RunOnCleanEnv]. *)
Theorem MockCleanOsEnv_isolated mp fn st :
  (forall k,
     Testutil.setAll (map_to_list mp) (Golib.Clearenv (Testutil.env st)) !! k
     = match mp !! k with
       | Some v => if Golib.validKey k && Golib.validValue v then Some v else None
       | None => None
       end)
  /\ Testutil.MockCleanOsEnv mp fn st = Testutil.RevertOSEnv st
  /\ Testutil.RunOnCleanEnv fn st = Testutil.RevertOSEnv st.
Proof.
  split; [|split; reflexivity].
  intros k. rewrite setAll_lookup by apply NoDup_fst_map_to_list.
  rewrite list_to_map_to_list. unfold Golib.Clearenv, afterSetenv.
  rewrite lookup_empty. reflexivity.
Qed.

(** ** SetOsEnvs and RemoveTmpEnvs *)

Lemma keys_of_map (mp : gmap string string) k :
  k ∈ (map_to_list mp).*1 <-> is_Some (mp !! k).
Proof. apply rangeOf_keys, rangeOf_map_to_list. Qed.

(** [SetOsEnvs] sets every entry of [mp] that [os.Setenv] accepts and
    registers [mp] under the key it returns.  [RemoveTmpEnvs] with that
    key then unsets every key of [mp] - a variable that [SetOsEnvs]
    overwrote is removed, not put back to its old value - leaves all other
    variables alone, and forgets the group. *)
Theorem SetOsEnvs_then_RemoveTmpEnvs now mp st :
  let tmpKey := (Testutil.SetOsEnvs now mp st).1 in
  let st1 := (Testutil.SetOsEnvs now mp st).2 in
  (forall k, Testutil.env st1 !! k
             = match mp !! k with
               | Some v => afterSetenv k v (Testutil.env st !! k)
               | None => Testutil.env st !! k
               end)
  /\ Testutil.envGroupSet st1 !! tmpKey = Some mp
  /\ Testutil.RemoveTmpEnvs tmpKey st1
     = Testutil.mkState (Testutil.env st ∖ mp)
         (delete tmpKey (Testutil.envGroupSet st)) (Testutil.envBak st).
Proof.
  cbv zeta. unfold Testutil.SetOsEnvs. cbn [fst snd Testutil.env Testutil.envGroupSet].
  split; [|split].
  - intros k. rewrite setAll_lookup by apply NoDup_fst_map_to_list.
    now rewrite list_to_map_to_list.
  - apply lookup_insert_eq.
  - unfold Testutil.RemoveTmpEnvs. cbn [Testutil.env Testutil.envGroupSet Testutil.envBak].
    rewrite lookup_insert_eq, delete_insert_eq. f_equal.
    apply map_eq. intros k.
    rewrite unsetAll_lookup, lookup_difference.
    destruct (decide (k ∈ (map_to_list mp).*1)) as [Hin|Hnin].
    + apply keys_of_map in Hin as [v ->]. reflexivity.
    + rewrite setAll_lookup by apply NoDup_fst_map_to_list.
      rewrite list_to_map_to_list.
      destruct (mp !! k) eqn:E; [|reflexivity].
      exfalso. apply Hnin, keys_of_map. eauto.
Qed.

(** [RemoveTmpEnvs] with a key that names no group changes nothing, and
    removing a group twice is the same as removing it once. *)
Theorem RemoveTmpEnvs_idempotent tmpKey st :
  (Testutil.envGroupSet st !! tmpKey = None -> Testutil.RemoveTmpEnvs tmpKey st = st)
  /\ Testutil.RemoveTmpEnvs tmpKey (Testutil.RemoveTmpEnvs tmpKey st)
     = Testutil.RemoveTmpEnvs tmpKey st.
Proof.
  assert (H0 : forall s, Testutil.envGroupSet s !! tmpKey = None ->
                         Testutil.RemoveTmpEnvs tmpKey s = s).
  { intros s H. unfold Testutil.RemoveTmpEnvs. now rewrite H. }
  split; [apply H0|].
  destruct (Testutil.envGroupSet st !! tmpKey) as [mp|] eqn:E.
  - apply H0. unfold Testutil.RemoveTmpEnvs. rewrite E.
    cbn [Testutil.envGroupSet]. apply lookup_delete_eq.
  - now rewrite !(H0 st E).
Qed.

Lemma RemoveTmpEnvs_idempotent_witness :
  Testutil.RemoveTmpEnvs "g_none" (Testutil.mkState {[ "A" := "1" ]} ∅ [])
  = Testutil.mkState {[ "A" := "1" ]} ∅ [].
Proof.
  apply (proj1 (RemoveTmpEnvs_idempotent "g_none"
                  (Testutil.mkState {[ "A" := "1" ]} ∅ []))).
  apply lookup_empty.
Defined.

Example FormatInt_base32 :
  Golib.FormatInt 0 32 = "0" /\ Golib.FormatInt 31 32 = "v"
  /\ Golib.FormatInt 32 32 = "10" /\ Golib.FormatInt (-1025) 32 = "-101"
  /\ Golib.FormatInt 255 16 = "ff"
  /\ (Testutil.SetOsEnvs 1700000000000000 ∅ (Testutil.mkState ∅ ∅ [])).1
     = "g_1ga4gc1sg00".
Proof. vm_compute. repeat split. Qed.

(** * Package cflag *)

Lemma String_length_zero (s : string) : Z.of_nat (String.length s) = 0 <-> s = "".
Proof. destruct s; cbn; split; intros H; try reflexivity; try discriminate; lia. Qed.

(** What a call of [addCmd] does: it panics on an empty or taken name, and
    otherwise returns the application with the name appended, the command
    (as the handler attachment and the hook leave it) stored under that
    name, and the width updated. *)
Lemma addCmd_run {H : Type} (MaxInt : Z -> Z -> Z)
    (c : Cflag.Cmd H) hook (a : Cflag.App H) :
  ((Cflag.Name c = "" \/ is_Some (Cflag.cmds a !! Cflag.Name c))
   /\ exists v, Cflag.addCmd MaxInt c hook a = Cflag.Panicked v)
  \/ (Cflag.Name c <> "" /\ Cflag.cmds a !! Cflag.Name c = None
      /\ exists stored,
           Cflag.addCmd MaxInt c hook a
           = Cflag.Returned
               (Cflag.mkApp (Cflag.names a ++ [Cflag.Name c])
                  (<[Cflag.Name c := stored]> (Cflag.cmds a))
                  (Cflag.AppName _ a) (Cflag.AppDesc _ a) (Cflag.Version _ a)
                  (MaxInt (Cflag.NameWidth a)
                     (Z.of_nat (String.length (Cflag.Name c)))))).
Proof.
  unfold Cflag.addCmd. cbv zeta.
  destruct (Z.eqb_spec (Z.of_nat (String.length (Cflag.Name c))) 0) as [Hz|Hz].
  { apply String_length_zero in Hz. left. split; [now left | eauto]. }
  rewrite String_length_zero in Hz.
  destruct (bool_decide_reflect (is_Some (Cflag.cmds a !! Cflag.Name c))) as [Hs|Hs].
  { left. split; [now right | eauto]. }
  right. split; [exact Hz|]. split; [|eauto].
  destruct (Cflag.cmds a !! Cflag.Name c); [exfalso; apply Hs; eauto | reflexivity].
Qed.

(** Adding a fresh name keeps the table consistent. *)
Lemma tableOk_add {H : Type} (a : Cflag.App H) name stored an ad ver width :
  Cflag.tableOk a ->
  Cflag.cmds a !! name = None ->
  Cflag.tableOk (Cflag.mkApp (Cflag.names a ++ [name])
                   (<[name := stored]> (Cflag.cmds a)) an ad ver width).
Proof.
  intros [Hnd Hkeys] Hfresh. split; cbn [Cflag.names Cflag.cmds].
  - apply NoDup_app. split; [exact Hnd|]. split; [|apply NoDup_singleton].
    intros n Hn Hn'. apply list_elem_of_singleton in Hn'. subst n.
    apply Hkeys in Hn. rewrite Hfresh in Hn. now destruct Hn.
  - intros n. rewrite elem_of_app, list_elem_of_singleton, Hkeys.
    destruct (decide (n = name)) as [->|Hn].
    + rewrite lookup_insert_eq. split; eauto.
    + rewrite lookup_insert_ne by congruence. tauto.
Qed.

Lemma tableOk_NewApp {H : Type} : Cflag.tableOk (Cflag.NewApp (handler := H) []).
Proof.
  split; [constructor|]. intros n. cbn. rewrite lookup_empty.
  split; [intros Hn; now apply elem_of_nil in Hn | intros [? Hn]; discriminate Hn].
Qed.




(** Whenever [Add] returns, it has appended the names of the commands in
    order, the table is still consistent, and, [MaxInt] being the maximum,
    [NameWidth] has not shrunk and is at least the length of every command
    name. *)
Theorem Add_keeps_table {H : Type} (MaxInt : Z -> Z -> Z)
    (cs : list (Cflag.Cmd H * option (Cflag.Cmd H -> Cflag.Cmd H)))
    (a a' : Cflag.App H) :
  (forall x y, MaxInt x y = Z.max x y) ->
  Cflag.tableOk a ->
  Cflag.widthOk a ->
  Cflag.Add MaxInt cs a = Cflag.Returned a' ->
  Cflag.names a' = Cflag.names a ++ ((fun ch => Cflag.Name ch.1) <$> cs)
  /\ Cflag.tableOk a'
  /\ Cflag.widthOk a'
  /\ Cflag.NameWidth a <= Cflag.NameWidth a'.
Proof.
  intros Hmax. revert a. induction cs as [|[c hook] rest IH]; intros a Hok Hw Hadd.
  - cbn in Hadd. injection Hadd as <-. cbn. rewrite app_nil_r.
    repeat split; try apply Hok; auto. lia.
  - cbn [Cflag.Add] in Hadd.
    destruct (addCmd_run MaxInt c hook a) as [[_ [v Hp]]|(Hne & Hfresh & st & Hr)].
    { rewrite Hp in Hadd. discriminate Hadd. }
    rewrite Hr in Hadd.
    set (a1 := Cflag.mkApp _ _ _ _ _ _) in Hadd.
    assert (Hok1 : Cflag.tableOk a1) by now apply tableOk_add.
    assert (Hw1 : Cflag.widthOk a1).
    { intros n Hn. cbn [a1 Cflag.names Cflag.NameWidth] in Hn |- *. rewrite Hmax.
      apply elem_of_app in Hn as [Hn|Hn].
      - specialize (Hw n Hn). lia.
      - apply list_elem_of_singleton in Hn. subst n. lia. }
    destruct (IH a1 Hok1 Hw1 Hadd) as (Hn' & Hok' & Hw' & Hle).
    split; [|split; [exact Hok'|split; [exact Hw'|]]].
    + rewrite Hn'. cbn [a1 Cflag.names fmap list_fmap fst]. now rewrite <- app_assoc.
    + cbn [a1 Cflag.NameWidth] in Hle. rewrite Hmax in Hle. lia.
Qed.

Lemma Add_keeps_table_witness :
  Cflag.names sampleApp = ["serve"; "generate-config"]
  /\ Cflag.widthOk sampleApp
  /\ 12 <= Cflag.NameWidth sampleApp.
Proof.
  destruct (Add_keeps_table Z.max sampleCmds (Cflag.NewApp []) sampleApp
              (fun x y => eq_refl) tableOk_NewApp) as (H1 & _ & H3 & H4).
  - intros n Hn. now apply elem_of_nil in Hn.
  - vm_compute. reflexivity.
  - split; [exact H1 | split; [exact H3 | exact H4]].
Defined.



(** The description of a command built with [NewCmd] is the one given to
    [NewCmd] (it lives in the command's [CFlags]; the command's own [Desc]
    is left empty). *)
Theorem getDesc_NewCmd {H : Type} (name desc : string) (runFunc : list H) :
  Cflag.getDesc (Cflag.NewCmd name desc runFunc) = Cflag.Returned desc
  /\ Cflag.Desc (Cflag.NewCmd name desc runFunc) = "".
Proof.
  unfold Cflag.getDesc, Cflag.NewCmd. cbn.
  split; [|reflexivity].
  destruct (String.eqb_spec desc "") as [->|_]; reflexivity.
Qed.

(** A command written by hand without [CFlags]: [addCmd] gives it
    [CFlags] (carrying its [Desc]) only when it has a handler.  Without a
    handler the stored command still has nil [CFlags], and [getDesc] - which
    the help page calls for every command - panics on it. *)
Theorem handmade_cmd_getDesc {H : Type} (MaxInt : Z -> Z -> Z)
    (c : Cflag.Cmd H) (a a' : Cflag.App H) (stored : Cflag.Cmd H) :
  Cflag.CmdCFlags c = None ->
  Cflag.addCmd MaxInt c None a = Cflag.Returned a' ->
  Cflag.findCmd a' (Cflag.Name c) = Some stored ->
  Cflag.getDesc stored
  = match Cflag.Func c with
    | Some _ => Cflag.Returned (Cflag.Desc c)
    | None => Cflag.Panicked Cflag.PanicNilPointer
    end.
Proof.
  intros Hnil Hadd Hfind. unfold Cflag.addCmd in Hadd. cbv zeta in Hadd.
  destruct (Z.of_nat (String.length (Cflag.Name c)) =? 0); [discriminate Hadd|].
  destruct (bool_decide _); [discriminate Hadd|].
  injection Hadd as <-. unfold Cflag.findCmd in Hfind. cbn [Cflag.cmds] in Hfind.
  rewrite lookup_insert_eq in Hfind. injection Hfind as <-.
  rewrite Hnil. destruct (Cflag.Func c) as [f|].
  - unfold Cflag.getDesc. cbn.
    destruct (String.eqb_spec (Cflag.Desc c) "") as [->|_]; reflexivity.
  - unfold Cflag.getDesc. now rewrite Hnil.
Qed.

Lemma handmade_cmd_getDesc_witness :
  Cflag.getDesc (Cflag.mkCmd (handler := unit) None "bare" "no handler" None)
  = Cflag.Panicked Cflag.PanicNilPointer.
Proof.
  apply (handmade_cmd_getDesc Z.max (Cflag.mkCmd None "bare" "no handler" None)
           (Cflag.NewApp [])
           (Cflag.mkApp ["bare"] {[ "bare" := Cflag.mkCmd None "bare" "no handler" None ]}
              "" "" "0.0.1" 12)
           _ eq_refl eq_refl).
  apply lookup_singleton_eq.
Defined.

(** [preRun] asks for the help page exactly when the flag parser reported
    its help error, or there is no argument, or the first argument is
    empty, "help", "--help" or "-h".  It then returns no error - an error
    of the flag parser is dropped when the first argument asks for help -
    and otherwise passes on what the parser returned. *)
Theorem preRun_help_iff {E : Type} (isHelp : E -> bool) (parseErr : option E)
    (args : list string) :
  ((Cflag.preRun isHelp parseErr args).1 = true
   <-> (exists err, parseErr = Some err /\ isHelp err = true)
       \/ args = []
       \/ (exists first rest, args = first :: rest
                              /\ first ∈ [""; "help"; "--help"; "-h"]))
  /\ (Cflag.preRun isHelp parseErr args).2
     = if (Cflag.preRun isHelp parseErr args).1 then None else parseErr.
Proof.
  unfold Cflag.preRun. cbv zeta.
  destruct parseErr as [err|]; [destruct (isHelp err) eqn:Hh|].
  1:{ split; [|reflexivity]. split; [intros _; left; eauto | reflexivity]. }
  all: destruct args as [|first rest];
    [ split; [|reflexivity]; split; [intros _; right; now left | reflexivity] | ].
  all: destruct (String.eqb_spec first "") as [->|H0];
    [ split; [|reflexivity]; split; [intros _|reflexivity];
      right; right; exists "", rest; split; [reflexivity | set_solver] | ].
  all: destruct (String.eqb_spec first "help") as [->|H1];
    [ split; [|reflexivity]; split; [intros _|reflexivity];
      right; right; exists "help", rest; split; [reflexivity | set_solver] | ].
  all: destruct (String.eqb_spec first "--help") as [->|H2];
    [ split; [|reflexivity]; split; [intros _|reflexivity];
      right; right; exists "--help", rest; split; [reflexivity | set_solver] | ].
  all: destruct (String.eqb_spec first "-h") as [->|H3];
    [ split; [|reflexivity]; split; [intros _|reflexivity];
      right; right; exists "-h", rest; split; [reflexivity | set_solver] | ].
  all: cbn [orb fst snd]; split; [|reflexivity]; split; [discriminate|].
  all: intros [(e0 & He & Hi)|[Hnil|(f & r & Heq & Hin)]];
    [ try discriminate He; try (injection He as <-; congruence)
    | discriminate Hnil
    | injection Heq as <- <-;
      repeat (apply elem_of_cons in Hin as [Hin|Hin]; [congruence|]);
      now apply elem_of_nil in Hin ].
Qed.
